(** * The dashboard of the suggestion box: inbox state and its handlers

    A model of [src/app/(app)/dashboard/page.tsx].  The React component
    [UserDashboard] keeps the owner's inbox in local state (the full
    message list, the displayed list, the category filter, two loading
    flags and the form value [acceptMessages]) and changes it from event
    handlers, three of which wait for an HTTP answer.

    The handlers are written as small resumptions: a handler is a
    sequence of state setters and toasts which may stop at an [await]
    for the answer of an axios request.  A handler is a closure over the
    state of the render that created it, so every handler below takes the
    rendered state as its first argument, while its setters act on the
    state that is current when they run. *)

From Stdlib Require Import List String Bool Arith Lia.
Import ListNotations.
Local Open Scope string_scope.
Local Open Scope list_scope.

(** ** JavaScript values *)

(** A value read from JSON or from a form may be missing. *)
Inductive Nullable (A : Type) : Type :=
| Undefined : Nullable A
| Null : Nullable A
| Val (a : A) : Nullable A.
Arguments Undefined {A}.
Arguments Null {A}.
Arguments Val {A} a.

(** What a form field can hold: the booleans the handlers store with
    [setValue], or the string value of the element the field is
    registered on. *)
Inductive FieldValue : Type :=
| boolean (b : bool)
| text (s : string).

(** A boolean of a JSON answer, stored in the form as it is. *)
Definition form_value (v : Nullable bool) : Nullable FieldValue :=
  match v with
  | Undefined => Undefined
  | Null => Null
  | Val b => Val (boolean b)
  end.

(** Truthiness of a form value that may be missing: a string is truthy
    unless it is empty. *)
Definition truthy (v : Nullable FieldValue) : bool :=
  match v with
  | Val (boolean b) => b
  | Val (text s) => negb (s =? "")
  | Undefined | Null => false
  end.

(** [!v] *)
Definition js_not (v : Nullable FieldValue) : bool := negb (truthy v).

(** [v ?? d] *)
Definition nullish {A : Type} (v : Nullable A) (d : A) : A :=
  match v with
  | Val a => a
  | Undefined | Null => d
  end.

(** [v || d] for an array [v]: every array, the empty one too, is truthy. *)
Definition array_or {A : Type} (v : Nullable (list A)) (d : list A) : list A :=
  match v with
  | Val l => l
  | Undefined | Null => d
  end.

(** ** Data *)

(** Modelled from the spec: the type [Message] is declared in
    [@/model/User], which is not among the sources.  The dashboard reads
    the fields [_id] and [purpose]; the spec's data model adds the content
    and the creation time.  [purpose] is kept as the string the code
    compares with [===]. *)
Record Message : Type := mkMessage {
  _id : string;
  content : string;
  purpose : string;
  createdAt : nat
}.

(** [type FilterOptions = "all" | "feedback" | "suggestion" | "appreciation"] *)
Inductive FilterOptions : Type := all | feedback | suggestion | appreciation.

(** The string a [FilterOptions] value is. *)
Definition option_value (f : FilterOptions) : string :=
  match f with
  | all => "all"
  | feedback => "feedback"
  | suggestion => "suggestion"
  | appreciation => "appreciation"
  end.

Module ApiResponse.
(** Modelled from the spec: [ApiResponse] is declared in
    [@/types/ApiResponse], which is not among the sources.  These are
    the fields the dashboard reads, each of which a JSON answer may
    leave out. *)
Record t : Type := mk {
  message : Nullable string;
  isAcceptingMessage : Nullable bool;
  messages : Nullable (list Message)
}.
End ApiResponse.

Record AxiosResponse : Type := mkResponse { data : ApiResponse.t }.

(** [AxiosError<ApiResponse>]: [response] is undefined when no answer came. *)
Record AxiosError : Type := mkError { response : option AxiosResponse }.

(** What [await axios.get(..)] or [await axios.post(..)] gives: the
    promise resolves, or it rejects and control goes to [catch]. *)
Inductive AxiosResult : Type :=
| Resolved (r : AxiosResponse)
| Rejected (e : AxiosError).

Inductive Request : Type :=
| Get (url : string)
| Post (url : string) (acceptMessages_field : bool).

Inductive Variant : Type := default | destructive.

Record Toast : Type := mkToast {
  title : Nullable string;
  description : Nullable string;
  variant : option Variant
}.

(** ** Component state *)

(** The [useState] cells of [UserDashboard] and the watched form value. *)
Record State : Type := mkState {
  messages : list Message;
  filteredMessages : list Message;
  isLoading : bool;
  isSwitchLoading : bool;
  filter : FilterOptions;
  acceptMessages : Nullable FieldValue
}.

(** The state of a fresh component: [useState] initial values, and a form
    without default values, whose watched field is undefined as long as
    the switch has not been registered. *)
Definition initial : State :=
  {| messages := []; filteredMessages := []; isLoading := false;
     isSwitchLoading := false; filter := all; acceptMessages := Undefined |}.

(** What leaves the component: requests sent and toasts shown, oldest first. *)
Inductive Event : Type :=
| Requested (rq : Request)
| Toasted (t : Toast).

Record World : Type := mkWorld {
  state : State;
  log : list Event
}.

(** ** Setters and resumptions *)

Inductive Action : Type :=
| setMessages (l : list Message)
| setFilteredMessages (l : list Message)
| setIsLoading (b : bool)
| setIsSwitchLoading (b : bool)
| setFilter (f : FilterOptions)
| setValue_acceptMessages (v : Nullable FieldValue)
| toast (t : Toast).

Definition set_state (a : Action) (s : State) : State :=
  match a with
  | setMessages l =>
      {| messages := l; filteredMessages := filteredMessages s;
         isLoading := isLoading s; isSwitchLoading := isSwitchLoading s;
         filter := filter s; acceptMessages := acceptMessages s |}
  | setFilteredMessages l =>
      {| messages := messages s; filteredMessages := l;
         isLoading := isLoading s; isSwitchLoading := isSwitchLoading s;
         filter := filter s; acceptMessages := acceptMessages s |}
  | setIsLoading b =>
      {| messages := messages s; filteredMessages := filteredMessages s;
         isLoading := b; isSwitchLoading := isSwitchLoading s;
         filter := filter s; acceptMessages := acceptMessages s |}
  | setIsSwitchLoading b =>
      {| messages := messages s; filteredMessages := filteredMessages s;
         isLoading := isLoading s; isSwitchLoading := b;
         filter := filter s; acceptMessages := acceptMessages s |}
  | setFilter f =>
      {| messages := messages s; filteredMessages := filteredMessages s;
         isLoading := isLoading s; isSwitchLoading := isSwitchLoading s;
         filter := f; acceptMessages := acceptMessages s |}
  | setValue_acceptMessages v =>
      {| messages := messages s; filteredMessages := filteredMessages s;
         isLoading := isLoading s; isSwitchLoading := isSwitchLoading s;
         filter := filter s; acceptMessages := v |}
  | toast _ => s
  end.

Definition perform (a : Action) (w : World) : World :=
  {| state := set_state a (state w);
     log := match a with
            | toast t => log w ++ [Toasted t]
            | _ => log w
            end |}.

Definition send (rq : Request) (w : World) : World :=
  {| state := state w; log := log w ++ [Requested rq] |}.

(** A handler body: finished, a setter followed by the rest, or a request
    whose answer the rest waits for. *)
Inductive Task : Type :=
| Done : Task
| Act (a : Action) (k : Task) : Task
| Await (rq : Request) (k : AxiosResult -> Task) : Task.

Notation "a ;; k" := (Act a k) (at level 61, right associativity).

(** [try { body } finally { fin }], for a body whose [catch] does not throw. *)
Fixpoint try_finally (body fin : Task) : Task :=
  match body with
  | Done => fin
  | Act a k => Act a (try_finally k fin)
  | Await rq k => Await rq (fun r => try_finally (k r) fin)
  end.

(** Runs a task with the answers [net] of the server, in order.  A task
    that reaches an [await] with no answer left stays suspended there:
    the request is sent and the world is the one seen while it is
    pending. *)
Fixpoint run (t : Task) (net : list AxiosResult) (w : World) : World :=
  match t with
  | Done => w
  | Act a k => run k net (perform a w)
  | Await rq k =>
      match net with
      | [] => send rq w
      | r :: net' => run (k r) net' (send rq w)
      end
  end.

(** Whether the task runs to its end with the answers [net]. *)
Fixpoint settles (t : Task) (net : list AxiosResult) : bool :=
  match t with
  | Done => true
  | Act _ k => settles k net
  | Await _ k =>
      match net with
      | [] => false
      | r :: net' => settles (k r) net'
      end
  end.

(** ** The handlers of [UserDashboard] *)

(** [axiosError.response?.data.message ?? fallback] *)
Definition error_description (error : AxiosError) (fallback : string) : string :=
  match response error with
  | None => fallback
  | Some r => nullish (ApiResponse.message (data r)) fallback
  end.

Definition error_toast (error : AxiosError) (fallback : string) : Toast :=
  {| title := Val "Error";
     description := Val (error_description error fallback);
     variant := Some destructive |}.

Definition handleDeleteMessage (rendered : State) (messageId : string) : Task :=
  let updatedMessages :=
    List.filter (fun message => negb (_id message =? messageId)) (messages rendered) in
  setMessages updatedMessages ;;
  setFilteredMessages updatedMessages ;;
  Done.

Definition fetchAcceptMessages : Task :=
  setIsSwitchLoading true ;;
  try_finally
    (Await (Get "/api/accept-messages") (fun result =>
       match result with
       | Resolved response =>
           setValue_acceptMessages
             (form_value (ApiResponse.isAcceptingMessage (data response))) ;;
           Done
       | Rejected error =>
           toast (error_toast error "Failed to fetch message settings") ;;
           Done
       end))
    (setIsSwitchLoading false ;; Done).

Definition fetchMessages (refresh : bool) : Task :=
  setIsLoading true ;;
  setIsSwitchLoading true ;;
  try_finally
    (Await (Get "/api/get-messages") (fun result =>
       match result with
       | Resolved response =>
           let fetchedMessages := array_or (ApiResponse.messages (data response)) [] in
           setMessages fetchedMessages ;;
           setFilteredMessages fetchedMessages ;;
           if refresh
           then toast {| title := Val "Refreshed Messages";
                         description := Val "Showing latest messages";
                         variant := None |} ;; Done
           else Done
       | Rejected error =>
           toast (error_toast error "Failed to fetch messages") ;;
           Done
       end))
    (setIsLoading false ;; setIsSwitchLoading false ;; Done).

Definition handleSwitchChange (rendered : State) : Task :=
  Await (Post "/api/accept-messages" (js_not (acceptMessages rendered))) (fun result =>
    match result with
    | Resolved response =>
        setValue_acceptMessages (Val (boolean (js_not (acceptMessages rendered)))) ;;
        toast {| title := ApiResponse.message (data response);
                 description := Undefined;
                 variant := Some default |} ;;
        Done
    | Rejected error =>
        toast (error_toast error "Failed to update message settings") ;;
        Done
    end).

Definition handleFilterChange (rendered : State) (selectedFilter : FilterOptions) : Task :=
  setFilter selectedFilter ;;
  if option_value selectedFilter =? "all"
  then setFilteredMessages (messages rendered) ;; Done
  else setFilteredMessages
         (List.filter (fun message => purpose message =? option_value selectedFilter)
            (messages rendered)) ;; Done.

(** ** What the page shows *)

(** The parts of the rendered page that depend on the state, for a signed
    in owner: the switch, its label, the [CountUp] figure under the
    heading "Total Messages Received:", and the cards (none while
    loading). *)
Record View : Type := mkView {
  switch_checked : Nullable FieldValue;
  switch_disabled : bool;
  accept_label : string;
  countUp_to : nat;
  cards : option (list Message)
}.

Definition render (s : State) : View :=
  {| switch_checked := acceptMessages s;
     switch_disabled := isSwitchLoading s;
     accept_label := if truthy (acceptMessages s) then "On" else "Off";
     countUp_to := List.length (filteredMessages s);
     cards := if isLoading s then None else Some (filteredMessages s) |}.

(** What the switch displays, as far as this page decides it: a switch
    whose [checked] prop is a boolean is controlled by it and displays
    that boolean.  With any other prop the display is left to the switch
    component and is not determined here. *)
Definition switch_display (v : View) : option bool :=
  match switch_checked v with
  | Val (boolean b) => Some b
  | _ => None
  end.

(** [{...register("acceptMessages")}] on the switch, at the moment the
    switch is mounted: the form has no default values, so a field without
    a value takes the value of the element it is registered on, and the
    button of the switch carries the value "on".  A field that has a
    value keeps it. *)
Definition register_acceptMessages (s : State) : State :=
  match acceptMessages s with
  | Undefined => set_state (setValue_acceptMessages (Val (text "on"))) s
  | _ => s
  end.

(** ** Events *)

(** An event runs the handler of the current render on the current world. *)
Definition dispatch (handler : State -> Task) (net : list AxiosResult) (w : World) : World :=
  run (handler (state w)) net w.

Definition select_filter (c : FilterOptions) : World -> World :=
  dispatch (fun rendered => handleFilterChange rendered c) [].

Definition delete_message (messageId : string) : World -> World :=
  dispatch (fun rendered => handleDeleteMessage rendered messageId) [].

Definition refresh_messages (refresh : bool) (answer : AxiosResult) : World -> World :=
  dispatch (fun _ => fetchMessages refresh) [answer].

Definition load_acceptance (answer : AxiosResult) : World -> World :=
  dispatch (fun _ => fetchAcceptMessages) [answer].

(** The switch is flipped and the answer to its request arrives. *)
Definition flip_switch (answer : AxiosResult) : World -> World :=
  dispatch handleSwitchChange [answer].

(** The switch is flipped and the request is still on its way. *)
Definition flip_switch_pending : World -> World :=
  dispatch handleSwitchChange [].

(** * Properties *)

(** ** Order-preserving selections of a list *)

(** [selection keep full sub]: [sub] is [full] with exactly the messages
    that satisfy [keep], in the order of [full]. *)
Inductive selection (keep : Message -> Prop) : list Message -> list Message -> Prop :=
| selection_nil : selection keep [] []
| selection_keep m l l' :
    keep m -> selection keep l l' -> selection keep (m :: l) (m :: l')
| selection_drop m l l' :
    ~ keep m -> selection keep l l' -> selection keep (m :: l) l'.

Section Selection.
Variable keep : Message -> Prop.
Variable keepb : Message -> bool.
Hypothesis keepb_spec : forall m, keepb m = true <-> keep m.

Lemma selection_of_filter (l : list Message) :
  selection keep l (List.filter keepb l).
Proof.
  induction l as [|m l IH]; simpl.
  - constructor.
  - destruct (keepb m) eqn:E.
    + apply selection_keep; [now apply keepb_spec | exact IH].
    + apply selection_drop; [|exact IH].
      intro K. apply keepb_spec in K. congruence.
Qed.

Lemma selection_functional (l l1 l2 : list Message) :
  selection keep l l1 -> selection keep l l2 -> l1 = l2.
Proof.
  intros S1. revert l2.
  induction S1 as [|m l l' K _ IH|m l l' K _ IH]; intros l2 S2;
    inversion S2; subst; try contradiction; auto.
  f_equal. now apply IH.
Qed.

Lemma selection_In (l l' : list Message) :
  selection keep l l' -> forall m, In m l' <-> (In m l /\ keep m).
Proof.
  induction 1 as [|x l l' K _ IH|x l l' K _ IH]; intros m; simpl.
  - tauto.
  - rewrite IH. split.
    + intros [->|[I Km]]; auto.
    + intros [[->|I] Km]; auto.
  - rewrite IH. split.
    + intros [I Km]; auto.
    + intros [[->|I] Km]; [contradiction | auto].
Qed.
End Selection.

(** A list from which nothing has to be dropped is its own selection. *)
Lemma filter_all_kept (f : Message -> bool) (l : list Message) :
  (forall m, In m l -> f m = true) -> List.filter f l = l.
Proof.
  induction l as [|m l IH]; simpl; intros H; [reflexivity|].
  rewrite (H m (or_introl eq_refl)). f_equal. apply IH. auto.
Qed.

Lemma filter_twice (f : Message -> bool) (l : list Message) :
  List.filter f (List.filter f l) = List.filter f l.
Proof.
  apply filter_all_kept. intros m I. apply filter_In in I. tauto.
Qed.

(** ** The state after each event *)

(** The list [handleFilterChange] hands to [setFilteredMessages]. *)
Definition shown_for (c : FilterOptions) (full : list Message) : list Message :=
  if option_value c =? "all" then full
  else List.filter (fun message => purpose message =? option_value c) full.

Lemma select_filter_eq (c : FilterOptions) (w : World) :
  select_filter c w =
  {| state := {| messages := messages (state w);
                 filteredMessages := shown_for c (messages (state w));
                 isLoading := isLoading (state w);
                 isSwitchLoading := isSwitchLoading (state w);
                 filter := c;
                 acceptMessages := acceptMessages (state w) |};
     log := log w |}.
Proof. destruct c; reflexivity. Qed.

Lemma delete_message_eq (messageId : string) (w : World) :
  delete_message messageId w =
  let updatedMessages :=
    List.filter (fun message => negb (_id message =? messageId)) (messages (state w)) in
  {| state := {| messages := updatedMessages;
                 filteredMessages := updatedMessages;
                 isLoading := isLoading (state w);
                 isSwitchLoading := isSwitchLoading (state w);
                 filter := filter (state w);
                 acceptMessages := acceptMessages (state w) |};
     log := log w |}.
Proof. reflexivity. Qed.

(** Setters other than the two for the lists leave both lists alone. *)
Definition touches_lists (a : Action) : bool :=
  match a with
  | setMessages _ | setFilteredMessages _ => true
  | _ => false
  end.

Fixpoint list_free (t : Task) : Prop :=
  match t with
  | Done => True
  | Act a k => touches_lists a = false /\ list_free k
  | Await _ k => forall r, list_free (k r)
  end.

Lemma list_free_run (t : Task) :
  list_free t ->
  forall net w,
    messages (state (run t net w)) = messages (state w) /\
    filteredMessages (state (run t net w)) = filteredMessages (state w).
Proof.
  induction t as [|a k IH|rq k IH]; simpl.
  - auto.
  - intros [Ha Hk] net w.
    destruct (IH Hk net (perform a w)) as [-> ->].
    destruct a; simpl in *; try discriminate; auto.
  - intros Hk [|r net] w; simpl; [auto|].
    destruct (IH r (Hk r) net (send rq w)) as [-> ->]. auto.
Qed.

Lemma refresh_messages_resolved (refresh : bool) (r : AxiosResponse) (w : World) :
  state (refresh_messages refresh (Resolved r) w) =
  let fetchedMessages := array_or (ApiResponse.messages (data r)) [] in
  {| messages := fetchedMessages;
     filteredMessages := fetchedMessages;
     isLoading := false;
     isSwitchLoading := false;
     filter := filter (state w);
     acceptMessages := acceptMessages (state w) |}.
Proof. destruct refresh; reflexivity. Qed.

Lemma refresh_messages_rejected (refresh : bool) (error : AxiosError) (w : World) :
  refresh_messages refresh (Rejected error) w =
  {| state := {| messages := messages (state w);
                 filteredMessages := filteredMessages (state w);
                 isLoading := false;
                 isSwitchLoading := false;
                 filter := filter (state w);
                 acceptMessages := acceptMessages (state w) |};
     log := (log w ++ [Requested (Get "/api/get-messages")])
              ++ [Toasted (error_toast error "Failed to fetch messages")] |}.
Proof. reflexivity. Qed.

Lemma load_acceptance_rejected (error : AxiosError) (w : World) :
  load_acceptance (Rejected error) w =
  {| state := {| messages := messages (state w);
                 filteredMessages := filteredMessages (state w);
                 isLoading := isLoading (state w);
                 isSwitchLoading := false;
                 filter := filter (state w);
                 acceptMessages := acceptMessages (state w) |};
     log := (log w ++ [Requested (Get "/api/accept-messages")])
              ++ [Toasted (error_toast error "Failed to fetch message settings")] |}.
Proof. reflexivity. Qed.

Lemma handleSwitchChange_list_free (rendered : State) :
  list_free (handleSwitchChange rendered).
Proof. intros [r|e]; simpl; auto. Qed.

Lemma fetchAcceptMessages_list_free : list_free fetchAcceptMessages.
Proof. simpl. split; [reflexivity|]. intros [r|e]; simpl; auto. Qed.

(** Several filter selections in a row. *)
Definition select_filters (cs : list FilterOptions) (w : World) : World :=
  fold_left (fun w c => select_filter c w) cs w.

Lemma select_filters_frame (cs : list FilterOptions) (w : World) :
  messages (state (select_filters cs w)) = messages (state w) /\
  log (select_filters cs w) = log w.
Proof.
  revert w. induction cs as [|c cs IH]; intros w; simpl; [auto|].
  destruct (IH (select_filter c w)) as [-> ->].
  rewrite select_filter_eq. auto.
Qed.

(** ** Sample data *)

Definition m_appreciation : Message :=
  {| _id := "m1"; content := "Great job!"; purpose := "appreciation"; createdAt := 3 |}.
Definition m_feedback : Message :=
  {| _id := "m2"; content := "The form is slow"; purpose := "feedback"; createdAt := 2 |}.
Definition m_suggestion : Message :=
  {| _id := "m3"; content := "Add a dark theme"; purpose := "suggestion"; createdAt := 1 |}.

Definition inbox : list Message := [m_appreciation; m_feedback; m_suggestion].

Definition fresh_world : World := {| state := initial; log := [] |}.

Definition answer_with (msgs : Nullable (list Message)) (flag : Nullable bool) : AxiosResponse :=
  {| data := {| ApiResponse.message := Val "ok";
                ApiResponse.isAcceptingMessage := flag;
                ApiResponse.messages := msgs |} |}.

(** The dashboard after a first successful load of [inbox]. *)
Definition loaded_world : World :=
  refresh_messages false (Resolved (answer_with (Val inbox) Undefined)) fresh_world.

(** The dashboard of an owner who does not accept messages. *)
Definition off_world : World :=
  load_acceptance (Resolved (answer_with Undefined (Val false))) loaded_world.

Definition no_answer : AxiosError := {| response := None |}.

(** ** The category filter *)

(** The projection of section 4.3 of the design: the whole sequence for
    [all], otherwise the messages whose purpose is the category, in the
    order of the sequence. *)
Definition category_projection (c : FilterOptions) (full shown : list Message) : Prop :=
  match c with
  | all => shown = full
  | feedback | suggestion | appreciation =>
      selection (fun m => purpose m = option_value c) full shown
  end.

Lemma shown_for_projection (c : FilterOptions) (full : list Message) :
  category_projection c full (shown_for c full).
Proof.
  destruct c; simpl; [reflexivity| | |];
    apply selection_of_filter; intros m; apply String.eqb_eq.
Qed.

Lemma category_projection_functional (c : FilterOptions) (full l1 l2 : list Message) :
  category_projection c full l1 -> category_projection c full l2 -> l1 = l2.
Proof.
  destruct c; simpl; [congruence| | |]; apply selection_functional.
Qed.

(** C1. Selecting a category [c] sets the displayed list to the whole
    message list when [c] is [all], and otherwise to the messages of the
    full list whose purpose is [c], in their order.  The result is taken
    from the full list: whatever was displayed before has no influence,
    and right after a successful fetch it is the projection of the
    fetched sequence. *)
Theorem handleFilterChange_category_projection (w : World) (c : FilterOptions) :
  category_projection c (messages (state w))
    (filteredMessages (state (select_filter c w)))
  /\ filter (state (select_filter c w)) = c
  /\ (forall previously_shown : list Message,
        filteredMessages
          (state (select_filter c (perform (setFilteredMessages previously_shown) w)))
        = filteredMessages (state (select_filter c w)))
  /\ (forall (refresh : bool) (r : AxiosResponse),
        category_projection c (array_or (ApiResponse.messages (data r)) [])
          (filteredMessages
             (state (select_filter c (refresh_messages refresh (Resolved r) w))))).
Proof.
  split; [|split; [|split]].
  - rewrite select_filter_eq. apply shown_for_projection.
  - rewrite select_filter_eq. reflexivity.
  - intros prev. rewrite !select_filter_eq. reflexivity.
  - intros refresh r. rewrite select_filter_eq. simpl.
    rewrite refresh_messages_resolved. apply shown_for_projection.
Qed.

Example filter_inbox_by_feedback :
  filteredMessages (state (select_filter feedback loaded_world)) = [m_feedback].
Proof. reflexivity. Qed.

(** C3. With no refetch in between, selecting feedback, then all, then
    feedback shows the same list on both feedback selections; more
    generally the list shown for a category does not depend on the
    selections made before.  A selection sends no request, shows no
    toast, runs to its end without waiting, and leaves the stored full
    list as it was. *)
Theorem filtering_is_pure (w : World) :
  filteredMessages (state (select_filter feedback (select_filter all (select_filter feedback w))))
  = filteredMessages (state (select_filter feedback w))
  /\ (forall (cs : list FilterOptions) (c : FilterOptions),
        filteredMessages (state (select_filter c (select_filters cs w)))
        = filteredMessages (state (select_filter c w)))
  /\ (forall c : FilterOptions,
        messages (state (select_filter c w)) = messages (state w)
        /\ log (select_filter c w) = log w
        /\ settles (handleFilterChange (state w) c) [] = true)
  /\ (forall cs : list FilterOptions,
        messages (state (select_filters cs w)) = messages (state w)
        /\ log (select_filters cs w) = log w).
Proof.
  split; [|split; [|split]].
  - rewrite !select_filter_eq. reflexivity.
  - intros cs c. rewrite !select_filter_eq. simpl.
    now destruct (select_filters_frame cs w) as [-> _].
  - intros c. rewrite select_filter_eq. simpl.
    split; [reflexivity|]. split; [reflexivity|]. destruct c; reflexivity.
  - intros cs. apply select_filters_frame.
Qed.

(** ** Deleting a message *)

Lemma id_kept_spec (messageId : string) (m : Message) :
  negb (_id m =? messageId) = true <-> _id m <> messageId.
Proof.
  rewrite negb_true_iff. split.
  - intros E. now apply String.eqb_neq.
  - intros N. now apply String.eqb_neq.
Qed.

(** C4. [handleDeleteMessage messageId] keeps, in order, exactly the
    messages whose [_id] differs from [messageId].  Afterwards no message
    with that id is in the full list or in the displayed list.  When no
    message has that id, both lists are the prior full list; and deleting
    the same id a second time changes nothing. *)
Theorem handleDeleteMessage_removes_exactly (w : World) (messageId : string) :
  selection (fun m => _id m <> messageId)
    (messages (state w)) (messages (state (delete_message messageId w)))
  /\ (forall m, In m (messages (state (delete_message messageId w))) <->
                In m (messages (state w)) /\ _id m <> messageId)
  /\ (forall m, In m (filteredMessages (state (delete_message messageId w))) ->
                _id m <> messageId)
  /\ ((forall m, In m (messages (state w)) -> _id m <> messageId) ->
      messages (state (delete_message messageId w)) = messages (state w) /\
      filteredMessages (state (delete_message messageId w)) = messages (state w))
  /\ delete_message messageId (delete_message messageId w) = delete_message messageId w.
Proof.
  pose proof (selection_of_filter _ _ (id_kept_spec messageId) (messages (state w))) as S.
  rewrite delete_message_eq. simpl.
  split; [exact S|]. split; [|split; [|split]].
  - apply (selection_In _ _ _ S).
  - intros m I. now apply (selection_In _ _ _ S) in I.
  - intros Absent.
    assert (List.filter (fun message => negb (_id message =? messageId)) (messages (state w))
            = messages (state w)) as ->; [|auto].
    apply filter_all_kept. intros m I. apply id_kept_spec. auto.
  - rewrite delete_message_eq. simpl. rewrite filter_twice. reflexivity.
Qed.

Lemma handleDeleteMessage_removes_exactly_witness :
  (forall m, In m (messages (state loaded_world)) -> _id m <> "m9")
  /\ messages (state (delete_message "m9" loaded_world)) = inbox
  /\ filteredMessages (state (delete_message "m9" loaded_world)) = inbox
  /\ messages (state (delete_message "m2" loaded_world)) = [m_appreciation; m_suggestion].
Proof.
  assert (forall m, In m (messages (state loaded_world)) -> _id m <> "m9") as Absent.
  { simpl. intros m [<-|[<-|[<-|[]]]]; discriminate. }
  split; [exact Absent|].
  destruct (handleDeleteMessage_removes_exactly loaded_world "m9")
    as (_ & _ & _ & Same & _).
  destruct (Same Absent) as [E1 E2].
  split; [exact E1|]. split; [exact E2|]. reflexivity.
Defined.

(** C9. After [handleDeleteMessage] the displayed list is the whole
    remaining list, and after a successful [fetchMessages] it is the whole
    fetched list, while the selected category stays what it was: the
    filter is not applied again.  The last part shows a dashboard whose
    selected category is feedback and which, after a deletion and after a
    refresh, displays messages of other categories. *)
Theorem delete_and_refresh_show_everything
    (w : World) (messageId : string) (refresh : bool) (r : AxiosResponse) :
  (filteredMessages (state (delete_message messageId w))
     = messages (state (delete_message messageId w))
   /\ filter (state (delete_message messageId w)) = filter (state w))
  /\ (filteredMessages (state (refresh_messages refresh (Resolved r) w))
        = array_or (ApiResponse.messages (data r)) []
      /\ messages (state (refresh_messages refresh (Resolved r) w))
        = array_or (ApiResponse.messages (data r)) []
      /\ filter (state (refresh_messages refresh (Resolved r) w)) = filter (state w)
      /\ settles (fetchMessages refresh) [Resolved r] = true)
  /\ (let filtered := select_filter feedback loaded_world in
      filter (state (delete_message "m1" filtered)) = feedback
      /\ filteredMessages (state (delete_message "m1" filtered)) = [m_feedback; m_suggestion]
      /\ filter (state (refresh_messages true (Resolved (answer_with (Val inbox) Undefined)) filtered))
         = feedback
      /\ filteredMessages
           (state (refresh_messages true (Resolved (answer_with (Val inbox) Undefined)) filtered))
         = inbox).
Proof.
  split; [|split].
  - rewrite delete_message_eq. simpl. auto.
  - rewrite refresh_messages_resolved. simpl.
    repeat (split; [reflexivity|]). destruct refresh; reflexivity.
  - cbv zeta. repeat (split; [reflexivity|]). reflexivity.
Qed.

(** C10. A successful answer whose [messages] field is absent or null is
    an empty inbox: [fetchMessages] runs to its end, both lists become the
    empty list, and no error toast is shown. *)
Theorem fetchMessages_without_messages_field
    (w : World) (refresh : bool) (r : AxiosResponse)
    (Missing : ApiResponse.messages (data r) = Undefined \/
               ApiResponse.messages (data r) = Null) :
  messages (state (refresh_messages refresh (Resolved r) w)) = []
  /\ filteredMessages (state (refresh_messages refresh (Resolved r) w)) = []
  /\ settles (fetchMessages refresh) [Resolved r] = true
  /\ (forall error fallback,
        ~ In (Toasted (error_toast error fallback))
             (skipn (List.length (log w)) (log (refresh_messages refresh (Resolved r) w)))).
Proof.
  rewrite refresh_messages_resolved. simpl.
  assert (array_or (ApiResponse.messages (data r)) [] = []) as ->.
  { destruct Missing as [-> | ->]; reflexivity. }
  split; [reflexivity|]. split; [reflexivity|].
  split; [destruct refresh; reflexivity|].
  intros error fallback.
  destruct refresh; unfold refresh_messages, dispatch; simpl.
  - rewrite <- app_assoc, skipn_app, skipn_all, Nat.sub_diag. simpl.
    intros [H|[H|[]]]; discriminate.
  - rewrite skipn_app, skipn_all, Nat.sub_diag. simpl.
    intros [H|[]]; discriminate.
Qed.

Lemma fetchMessages_without_messages_field_witness :
  messages (state (refresh_messages true (Resolved (answer_with Null (Val true))) loaded_world)) = []
  /\ filteredMessages
       (state (refresh_messages true (Resolved (answer_with Null (Val true))) loaded_world)) = [].
Proof.
  destruct (fetchMessages_without_messages_field loaded_world true
              (answer_with Null (Val true)) (or_intror eq_refl)) as (E1 & E2 & _).
  split; [exact E1 | exact E2].
Defined.

(** ** Failed fetches *)

(** C5. A failed [fetchMessages] shows one destructive "Error" toast and
    leaves the full list, the displayed list, the filter and the
    acceptance value as they were; a failed [fetchAcceptMessages] shows
    one such toast and leaves the acceptance value and both lists as they
    were.  Both handlers run to their end. *)
Theorem failed_fetch_keeps_last_state (w : World) (refresh : bool) (error : AxiosError) :
  (messages (state (refresh_messages refresh (Rejected error) w)) = messages (state w)
   /\ filteredMessages (state (refresh_messages refresh (Rejected error) w))
      = filteredMessages (state w)
   /\ filter (state (refresh_messages refresh (Rejected error) w)) = filter (state w)
   /\ acceptMessages (state (refresh_messages refresh (Rejected error) w))
      = acceptMessages (state w)
   /\ log (refresh_messages refresh (Rejected error) w)
      = log w ++ [Requested (Get "/api/get-messages");
                  Toasted {| title := Val "Error";
                             description :=
                               Val (error_description error "Failed to fetch messages");
                             variant := Some destructive |}]
   /\ settles (fetchMessages refresh) [Rejected error] = true)
  /\ (acceptMessages (state (load_acceptance (Rejected error) w)) = acceptMessages (state w)
      /\ messages (state (load_acceptance (Rejected error) w)) = messages (state w)
      /\ filteredMessages (state (load_acceptance (Rejected error) w))
         = filteredMessages (state w)
      /\ log (load_acceptance (Rejected error) w)
         = log w ++ [Requested (Get "/api/accept-messages");
                     Toasted {| title := Val "Error";
                                description :=
                                  Val (error_description error
                                         "Failed to fetch message settings");
                                variant := Some destructive |}]
      /\ settles fetchAcceptMessages [Rejected error] = true).
Proof.
  split.
  - rewrite refresh_messages_rejected. simpl.
    repeat (split; [reflexivity|]).
    split; [now rewrite <- app_assoc | reflexivity].
  - rewrite load_acceptance_rejected. simpl.
    repeat (split; [reflexivity|]).
    split; [now rewrite <- app_assoc | reflexivity].
Qed.

Example failed_refresh_of_filtered_inbox :
  let filtered := select_filter feedback loaded_world in
  state (refresh_messages true (Rejected no_answer) filtered) = state filtered.
Proof. reflexivity. Qed.

(** ** The acceptance switch *)

Lemma flip_switch_pending_eq (w : World) :
  flip_switch_pending w =
  {| state := state w;
     log := log w ++ [Requested (Post "/api/accept-messages"
                                   (js_not (acceptMessages (state w))))] |}.
Proof. reflexivity. Qed.

Lemma flip_switch_rejected (error : AxiosError) (w : World) :
  flip_switch (Rejected error) w =
  {| state := state w;
     log := (log w ++ [Requested (Post "/api/accept-messages"
                                    (js_not (acceptMessages (state w))))])
              ++ [Toasted (error_toast error "Failed to update message settings")] |}.
Proof. reflexivity. Qed.

Lemma flip_switch_resolved (r : AxiosResponse) (w : World) :
  flip_switch (Resolved r) w =
  {| state := {| messages := messages (state w);
                 filteredMessages := filteredMessages (state w);
                 isLoading := isLoading (state w);
                 isSwitchLoading := isSwitchLoading (state w);
                 filter := filter (state w);
                 acceptMessages := Val (boolean (js_not (acceptMessages (state w)))) |};
     log := (log w ++ [Requested (Post "/api/accept-messages"
                                    (js_not (acceptMessages (state w))))])
              ++ [Toasted {| title := ApiResponse.message (data r);
                             description := Undefined;
                             variant := Some default |}] |}.
Proof. reflexivity. Qed.

(** C6, as the claim states it: the page would show the new toggle state
    while the request is pending.  For an owner whose switch is off it
    keeps showing "Off", with the switch unchecked. *)
Lemma handleSwitchChange_not_optimistic :
  acceptMessages (state off_world) = Val (boolean false)
  /\ switch_checked (render (state (flip_switch_pending off_world))) = Val (boolean false)
  /\ switch_display (render (state (flip_switch_pending off_world))) = Some false
  /\ accept_label (render (state (flip_switch_pending off_world))) = "Off"
  /\ truthy (switch_checked (render (state (flip_switch_pending off_world))))
     <> js_not (acceptMessages (state off_world)).
Proof.
  repeat (split; [reflexivity|]). discriminate.
Qed.

(** C6, amended.  In every state [handleSwitchChange] first posts the
    negated value and stores nothing: the local value becomes the
    negation only when the server answers with success, and after a
    failed update an "Error" toast is shown and the local state, the
    acceptance value included, equals the state before the flip.  When
    the local value is a boolean, so that the switch is controlled by it,
    the switch and its label keep displaying the previous state while the
    request is pending and after a failure, and display the negation
    after a success: nothing is displayed ahead of the server and nothing
    has to be rolled back.  What the switch displays when the value is
    not a boolean is not covered. *)
Theorem handleSwitchChange_waits_for_the_server
    (w : World) (r : AxiosResponse) (error : AxiosError) :
  (state (flip_switch (Rejected error) w) = state w
   /\ acceptMessages (state (flip_switch (Rejected error) w)) = acceptMessages (state w)
   /\ log (flip_switch (Rejected error) w)
      = log w ++ [Requested (Post "/api/accept-messages"
                               (js_not (acceptMessages (state w))));
                  Toasted {| title := Val "Error";
                             description :=
                               Val (error_description error
                                      "Failed to update message settings");
                             variant := Some destructive |}]
   /\ settles (handleSwitchChange (state w)) [Rejected error] = true)
  /\ (state (flip_switch_pending w) = state w
      /\ log (flip_switch_pending w)
         = log w ++ [Requested (Post "/api/accept-messages"
                                  (js_not (acceptMessages (state w))))]
      /\ settles (handleSwitchChange (state w)) [] = false
      /\ acceptMessages (state (flip_switch (Resolved r) w))
         = Val (boolean (js_not (acceptMessages (state w))))
      /\ settles (handleSwitchChange (state w)) [Resolved r] = true)
  /\ (forall b : bool,
        acceptMessages (state w) = Val (boolean b) ->
        switch_display (render (state w)) = Some b
        /\ switch_display (render (state (flip_switch_pending w))) = Some b
        /\ accept_label (render (state (flip_switch_pending w)))
           = accept_label (render (state w))
        /\ switch_display (render (state (flip_switch (Rejected error) w))) = Some b
        /\ accept_label (render (state (flip_switch (Rejected error) w)))
           = accept_label (render (state w))
        /\ switch_display (render (state (flip_switch (Resolved r) w))) = Some (negb b)).
Proof.
  split; [|split].
  - rewrite flip_switch_rejected. simpl.
    repeat (split; [reflexivity|]).
    split; [now rewrite <- app_assoc | reflexivity].
  - rewrite flip_switch_pending_eq, flip_switch_resolved. simpl. auto.
  - intros b E.
    rewrite flip_switch_pending_eq, flip_switch_rejected, flip_switch_resolved.
    unfold switch_display, render. cbn [switch_checked accept_label state acceptMessages].
    rewrite E. cbn [truthy js_not]. repeat (split; [reflexivity|]). reflexivity.
Qed.

Lemma handleSwitchChange_waits_for_the_server_witness :
  acceptMessages (state off_world) = Val (boolean false)
  /\ switch_display (render (state (flip_switch_pending off_world))) = Some false
  /\ switch_display (render (state (flip_switch (Rejected no_answer) off_world))) = Some false
  /\ switch_display
       (render (state (flip_switch (Resolved (answer_with Undefined (Val true))) off_world)))
     = Some true.
Proof.
  split; [reflexivity|].
  destruct (handleSwitchChange_waits_for_the_server off_world
              (answer_with Undefined (Val true)) no_answer)
    as (_ & _ & Shown).
  destruct (Shown false eq_refl) as (_ & Pending & _ & Failed & _ & Done).
  split; [exact Pending|]. split; [exact Failed | exact Done].
Defined.

(** C7. Neither [handleSwitchChange] nor [fetchAcceptMessages] touches the
    messages: whatever the server answers (success, failure, or nothing
    yet), and whichever render the switch handler was created in, the full
    list and the displayed list after the call are the ones before it. *)
Theorem acceptance_calls_keep_messages
    (rendered : State) (net : list AxiosResult) (answer : AxiosResult) (w : World) :
  (messages (state (run (handleSwitchChange rendered) net w)) = messages (state w)
   /\ filteredMessages (state (run (handleSwitchChange rendered) net w))
      = filteredMessages (state w))
  /\ (messages (state (flip_switch answer w)) = messages (state w)
      /\ filteredMessages (state (flip_switch answer w)) = filteredMessages (state w))
  /\ (messages (state (run fetchAcceptMessages net w)) = messages (state w)
      /\ filteredMessages (state (run fetchAcceptMessages net w))
         = filteredMessages (state w))
  /\ (messages (state (load_acceptance answer w)) = messages (state w)
      /\ filteredMessages (state (load_acceptance answer w)) = filteredMessages (state w)).
Proof.
  split; [|split; [|split]].
  - apply list_free_run, handleSwitchChange_list_free.
  - apply list_free_run, handleSwitchChange_list_free.
  - apply list_free_run, fetchAcceptMessages_list_free.
  - apply list_free_run, fetchAcceptMessages_list_free.
Qed.

Example switch_keeps_filtered_inbox :
  let filtered := select_filter suggestion loaded_world in
  filteredMessages (state (flip_switch (Resolved (answer_with Undefined (Val true))) filtered))
  = [m_suggestion].
Proof. reflexivity. Qed.

(** C8, as the claim states it: two successful flips would give back the
    original value.  On the dashboard of a signed-in owner whose
    acceptance value could not be loaded, the field still holds the
    switch's own value "on": the two flips leave [true], not "on".  After
    an answer that carries no [isAcceptingMessage] the value is undefined:
    the two flips leave [false], not undefined. *)
Lemma two_flips_do_not_restore :
  let unloaded :=
    load_acceptance (Rejected no_answer)
      {| state := register_acceptMessages initial; log := [] |} in
  let unanswered := load_acceptance (Resolved (answer_with Undefined Undefined)) loaded_world in
  let yes := Resolved (answer_with Undefined (Val true)) in
  let no := Resolved (answer_with Undefined (Val false)) in
  (acceptMessages (state unloaded) = Val (text "on")
   /\ acceptMessages (state (flip_switch yes (flip_switch no unloaded))) = Val (boolean true)
   /\ acceptMessages (state (flip_switch yes (flip_switch no unloaded)))
      <> acceptMessages (state unloaded))
  /\ (acceptMessages (state unanswered) = Undefined
      /\ acceptMessages (state (flip_switch no (flip_switch yes unanswered)))
         = Val (boolean false)
      /\ acceptMessages (state (flip_switch no (flip_switch yes unanswered)))
         <> acceptMessages (state unanswered)).
Proof.
  cbv zeta. split.
  - split; [reflexivity|]. split; [reflexivity|]. discriminate.
  - split; [reflexivity|]. split; [reflexivity|]. discriminate.
Qed.

(** C8, amended.  [handleSwitchChange] posts the negation of the current
    local value and, on success, sets the local value to that negation.
    Two successful calls in a row leave the boolean that the original
    value counts as: the original value itself when it is [true] or
    [false]; [false] when it is undefined or null; [true] when it is a
    non-empty string such as "on".  The label of the switch is the same
    as before the two calls. *)
Theorem handleSwitchChange_twice (w : World) (r1 r2 : AxiosResponse) :
  (In (Requested (Post "/api/accept-messages" (js_not (acceptMessages (state w)))))
      (log (flip_switch (Resolved r1) w))
   /\ acceptMessages (state (flip_switch (Resolved r1) w))
      = Val (boolean (js_not (acceptMessages (state w)))))
  /\ acceptMessages (state (flip_switch (Resolved r2) (flip_switch (Resolved r1) w)))
     = Val (boolean (truthy (acceptMessages (state w))))
  /\ (forall b : bool,
        acceptMessages (state w) = Val (boolean b) ->
        acceptMessages (state (flip_switch (Resolved r2) (flip_switch (Resolved r1) w)))
        = acceptMessages (state w))
  /\ accept_label (render (state (flip_switch (Resolved r2) (flip_switch (Resolved r1) w))))
     = accept_label (render (state w)).
Proof.
  assert (acceptMessages (state (flip_switch (Resolved r2) (flip_switch (Resolved r1) w)))
          = Val (boolean (truthy (acceptMessages (state w))))) as Twice.
  { rewrite !flip_switch_resolved. simpl. unfold js_not. simpl.
    now rewrite negb_involutive. }
  split; [|split; [|split]].
  - rewrite flip_switch_resolved. simpl. split; [|reflexivity].
    apply in_or_app. left. apply in_or_app. right. now left.
  - exact Twice.
  - intros b E. rewrite Twice, E. reflexivity.
  - cbn [render accept_label]. rewrite Twice. reflexivity.
Qed.

Lemma handleSwitchChange_twice_witness :
  acceptMessages (state off_world) = Val (boolean false)
  /\ acceptMessages
       (state (flip_switch (Resolved (answer_with Undefined (Val false)))
                 (flip_switch (Resolved (answer_with Undefined (Val true))) off_world)))
     = acceptMessages (state off_world).
Proof.
  split; [reflexivity|].
  destruct (handleSwitchChange_twice off_world
              (answer_with Undefined (Val true)) (answer_with Undefined (Val false)))
    as (_ & _ & Same & _).
  exact (Same false eq_refl).
Defined.

(** ** The message count *)

(** C2.  The figure under "Total Messages Received:" is the length of the
    displayed list.  With the three-message inbox loaded and the feedback
    category selected it is 1, while the inbox holds 3 messages. *)
Theorem count_follows_displayed_list :
  messages (state (select_filter feedback loaded_world)) = inbox
  /\ List.length (messages (state (select_filter feedback loaded_world))) = 3
  /\ countUp_to (render (state (select_filter feedback loaded_world))) = 1
  /\ (forall s : State, countUp_to (render s) = List.length (filteredMessages s)).
Proof.
  repeat (split; [reflexivity|]). intros s. reflexivity.
Qed.

(** * More of the dashboard *)

(** ** Facts about [List.filter] used below *)

Lemma filter_swap (f g : Message -> bool) (l : list Message) :
  List.filter f (List.filter g l) = List.filter g (List.filter f l).
Proof.
  induction l as [|m l IH]; simpl; [reflexivity|].
  destruct (g m) eqn:G, (f m) eqn:F; simpl; rewrite ?G, ?F, IH; reflexivity.
Qed.

Lemma filter_shorter (f : Message -> bool) (l : list Message) :
  List.length (List.filter f l) <= List.length l.
Proof.
  induction l as [|m l IH]; simpl; [lia|]. destruct (f m); simpl; lia.
Qed.

(** In a list without repeated ids, dropping a present id drops one message. *)
Lemma filter_out_unique_id (messageId : string) (l : list Message) :
  NoDup (map _id l) ->
  In messageId (map _id l) ->
  S (List.length (List.filter (fun message => negb (_id message =? messageId)) l))
  = List.length l.
Proof.
  induction l as [|m l IH]; simpl; intros ND I; [contradiction|].
  inversion ND as [|x xs Fresh ND']; subst.
  destruct (String.eqb_spec (_id m) messageId) as [E|N]; simpl.
  - f_equal. f_equal. apply filter_all_kept.
    intros m' I'. apply id_kept_spec. intros E'.
    apply Fresh. rewrite E, <- E'. now apply in_map.
  - f_equal. apply IH; [exact ND'|]. destruct I as [E|I]; [contradiction | exact I].
Qed.

(** ** Deleting, again *)

(** X1. [handleDeleteMessage] works on the local lists only: it sends no
    request and shows no toast.  Two deletions give the same state in
    either order, and a deletion never makes the inbox longer. *)
Theorem deletions_are_local_and_commute (w : World) (a b : string) :
  log (delete_message a w) = log w
  /\ settles (handleDeleteMessage (state w) a) [] = true
  /\ delete_message a (delete_message b w) = delete_message b (delete_message a w)
  /\ List.length (messages (state (delete_message a w))) <= List.length (messages (state w)).
Proof.
  rewrite !delete_message_eq. cbn -[List.filter].
  split; [reflexivity|]. split; [reflexivity|]. split.
  - now rewrite (filter_swap _ _ (messages (state w))).
  - apply filter_shorter.
Qed.

(** X2. When the ids of the inbox are pairwise different and the deleted
    id is the id of one of its messages, the deletion removes exactly one
    message: the inbox shrinks by one, and the figure on the page after
    the deletion is the size of the inbox that is left.  When the page
    was displaying the whole inbox, the figure therefore drops by one;
    with a category selected it need not, because the deletion displays
    the whole list again. *)
Theorem handleDeleteMessage_removes_one (w : World) (messageId : string)
    (Unique : NoDup (map _id (messages (state w))))
    (Present : In messageId (map _id (messages (state w)))) :
  S (List.length (messages (state (delete_message messageId w))))
  = List.length (messages (state w))
  /\ countUp_to (render (state (delete_message messageId w)))
     = List.length (messages (state (delete_message messageId w)))
  /\ (filteredMessages (state w) = messages (state w) ->
      S (countUp_to (render (state (delete_message messageId w))))
      = countUp_to (render (state w))).
Proof.
  rewrite delete_message_eq. cbn -[List.filter].
  split; [now apply filter_out_unique_id|]. split; [reflexivity|].
  intros ->. now apply filter_out_unique_id.
Qed.

Lemma handleDeleteMessage_removes_one_witness :
  NoDup (map _id (messages (state loaded_world)))
  /\ In "m2" (map _id (messages (state loaded_world)))
  /\ filteredMessages (state loaded_world) = messages (state loaded_world)
  /\ S (List.length (messages (state (delete_message "m2" loaded_world))))
     = List.length (messages (state loaded_world))
  /\ S (countUp_to (render (state (delete_message "m2" loaded_world))))
     = countUp_to (render (state loaded_world)).
Proof.
  assert (NoDup (map _id (messages (state loaded_world)))) as Unique.
  { simpl. repeat constructor; simpl; intuition discriminate. }
  assert (In "m2" (map _id (messages (state loaded_world)))) as Present.
  { simpl. auto. }
  split; [exact Unique|]. split; [exact Present|]. split; [reflexivity|].
  destruct (handleDeleteMessage_removes_one loaded_world "m2" Unique Present)
    as (One & _ & Figure).
  split; [exact One | exact (Figure eq_refl)].
Defined.

(** With the feedback category selected the figure is 1; deleting the
    feedback message displays the two messages that are left. *)
Example figure_after_filtered_delete :
  countUp_to (render (state (select_filter feedback loaded_world))) = 1
  /\ countUp_to (render (state (delete_message "m2" (select_filter feedback loaded_world)))) = 2.
Proof. split; reflexivity. Qed.

(** ** Categories *)

(** Whether the purpose of a message is one of the three categories of
    the filter. *)
Definition in_a_category (m : Message) : bool :=
  (purpose m =? option_value feedback)
  || (purpose m =? option_value suggestion)
  || (purpose m =? option_value appreciation).

Lemma purposes_split (l : list Message) :
  List.length (List.filter (fun message => purpose message =? option_value feedback) l)
  + List.length (List.filter (fun message => purpose message =? option_value suggestion) l)
  + List.length (List.filter (fun message => purpose message =? option_value appreciation) l)
  + List.length (List.filter (fun m => negb (in_a_category m)) l)
  = List.length l.
Proof.
  induction l as [|m l IH]; [reflexivity|].
  cbn [List.filter]. unfold in_a_category at 1. cbn [option_value].
  destruct (String.eqb_spec (purpose m) "feedback") as [E1|N1];
    destruct (String.eqb_spec (purpose m) "suggestion") as [E2|N2];
    destruct (String.eqb_spec (purpose m) "appreciation") as [E3|N3];
    try (rewrite E1 in *; discriminate);
    try (rewrite E2 in *; discriminate);
    cbn [orb negb List.length]; cbn [option_value] in IH; lia.
Qed.

Lemma shown_for_In_iff (c : FilterOptions) (l : list Message) (m : Message) :
  In m (shown_for c l) <-> In m l /\ (c = all \/ purpose m = option_value c).
Proof.
  destruct c; unfold shown_for; cbn -[List.filter In];
    rewrite ?filter_In, ?String.eqb_eq.
  - split; [auto | tauto].
  - split; [tauto | intros [I [E|E]]; [discriminate | auto]].
  - split; [tauto | intros [I [E|E]]; [discriminate | auto]].
  - split; [tauto | intros [I [E|E]]; [discriminate | auto]].
Qed.

Lemma option_value_injective (c1 c2 : FilterOptions) :
  option_value c1 = option_value c2 -> c1 = c2.
Proof. destruct c1, c2; simpl; intros E; try reflexivity; discriminate. Qed.

(** X3. The three category views split the inbox.  A message is shown
    under at most one of the three categories, and a message whose
    purpose is none of the three is shown under [all] and under no
    category.  So the three category counts and the number of such
    messages add up to the count shown under [all], which is the size of
    the inbox. *)
Theorem category_counts_add_up (w : World) :
  let count c := countUp_to (render (state (select_filter c w))) in
  let shown c := filteredMessages (state (select_filter c w)) in
  (count feedback + count suggestion + count appreciation
   + List.length (List.filter (fun m => negb (in_a_category m)) (messages (state w)))
   = count all
   /\ count all = List.length (messages (state w)))
  /\ (forall (m : Message) (c1 c2 : FilterOptions),
        c1 <> all -> c2 <> all -> In m (shown c1) -> In m (shown c2) -> c1 = c2)
  /\ (forall (m : Message) (c : FilterOptions),
        In m (messages (state w)) -> in_a_category m = false ->
        (In m (shown c) <-> c = all)).
Proof.
  cbv beta zeta. split; [|split].
  - rewrite !select_filter_eq. cbn -[List.filter].
    split; [|reflexivity]. apply purposes_split.
  - intros m c1 c2 N1 N2 I1 I2. rewrite select_filter_eq in I1, I2.
    cbn -[shown_for] in I1, I2.
    apply shown_for_In_iff in I1, I2.
    destruct I1 as [_ [E1|E1]]; [contradiction|].
    destruct I2 as [_ [E2|E2]]; [contradiction|].
    apply option_value_injective. congruence.
  - intros m c Listed Other. rewrite select_filter_eq. cbn -[shown_for].
    rewrite shown_for_In_iff. split.
    + intros [_ [E|E]]; [exact E|].
      unfold in_a_category in Other.
      apply orb_false_iff in Other. destruct Other as [Other App].
      apply orb_false_iff in Other. destruct Other as [Fee Sug].
      apply String.eqb_neq in App, Fee, Sug.
      cbn [option_value] in App, Fee, Sug.
      destruct c; cbn [option_value] in E; congruence.
    + intros ->. auto.
Qed.

Definition m_question : Message :=
  {| _id := "m4"; content := "When is the next release?"; purpose := "question";
     createdAt := 4 |}.

Lemma category_counts_add_up_witness :
  In m_question (filteredMessages
                   (state (select_filter all
                             (perform (setMessages (m_question :: inbox)) loaded_world))))
  /\ ~ In m_question (filteredMessages
                        (state (select_filter feedback
                                  (perform (setMessages (m_question :: inbox)) loaded_world)))).
Proof.
  destruct (category_counts_add_up (perform (setMessages (m_question :: inbox)) loaded_world))
    as (_ & _ & Only).
  assert (In m_question
            (messages (state (perform (setMessages (m_question :: inbox)) loaded_world))))
    as Listed by (left; reflexivity).
  split.
  - apply (Only m_question all Listed eq_refl). reflexivity.
  - intros I. apply (Only m_question feedback Listed eq_refl) in I. discriminate.
Defined.

(** X4. Deleting and then selecting a category shows the view of that
    category with the deleted message taken out. *)
Theorem select_after_delete (w : World) (c : FilterOptions) (messageId : string) :
  filteredMessages (state (select_filter c (delete_message messageId w)))
  = List.filter (fun message => negb (_id message =? messageId))
      (filteredMessages (state (select_filter c w)))
  /\ (forall m, In m (filteredMessages (state (select_filter c (delete_message messageId w))))
                <-> In m (filteredMessages (state (select_filter c w))) /\ _id m <> messageId).
Proof.
  assert (filteredMessages (state (select_filter c (delete_message messageId w)))
          = List.filter (fun message => negb (_id message =? messageId))
              (filteredMessages (state (select_filter c w)))) as E.
  { rewrite !select_filter_eq, delete_message_eq. cbn -[List.filter].
    unfold shown_for. destruct (option_value c =? "all"); [reflexivity|].
    apply filter_swap. }
  split; [exact E|].
  intros m. rewrite E, filter_In, id_kept_spec. reflexivity.
Qed.

(** ** The life of a fetch *)

(** X5. While [fetchMessages] waits for its answer the page shows the
    loader instead of the cards and the switch is disabled, and the lists
    are still the old ones.  Whatever the answer, the handler ends with
    both loading flags off, so the cards are shown again and the switch is
    enabled.  A successful first load is silent; a successful refresh
    shows exactly the toast "Refreshed Messages". *)
Theorem fetchMessages_lifecycle (w : World) (refresh : bool) (answer : AxiosResult)
    (r : AxiosResponse) :
  (let waiting := dispatch (fun _ => fetchMessages refresh) [] w in
   cards (render (state waiting)) = None
   /\ switch_disabled (render (state waiting)) = true
   /\ messages (state waiting) = messages (state w)
   /\ filteredMessages (state waiting) = filteredMessages (state w)
   /\ log waiting = log w ++ [Requested (Get "/api/get-messages")])
  /\ (let after := refresh_messages refresh answer w in
      isLoading (state after) = false
      /\ isSwitchLoading (state after) = false
      /\ cards (render (state after)) = Some (filteredMessages (state after))
      /\ switch_disabled (render (state after)) = false)
  /\ log (refresh_messages false (Resolved r) w)
     = log w ++ [Requested (Get "/api/get-messages")]
  /\ log (refresh_messages true (Resolved r) w)
     = log w ++ [Requested (Get "/api/get-messages");
                 Toasted {| title := Val "Refreshed Messages";
                            description := Val "Showing latest messages";
                            variant := None |}].
Proof.
  split; [|split; [|split]].
  - cbv zeta. unfold dispatch. simpl. auto.
  - cbv zeta. destruct answer as [r'|e].
    + rewrite refresh_messages_resolved. simpl. auto.
    + rewrite refresh_messages_rejected. simpl. auto.
  - reflexivity.
  - unfold refresh_messages, dispatch. simpl. now rewrite <- app_assoc.
Qed.

(** X6. While [fetchAcceptMessages] waits the switch is disabled.  A
    successful answer makes the local value exactly the answer's
    [isAcceptingMessage], whatever the value was before and also when the
    answer has none, and shows no toast; after either answer the switch is
    enabled again, and [isLoading] is never touched. *)
Theorem fetchAcceptMessages_lifecycle (w : World) (answer : AxiosResult)
    (r : AxiosResponse) :
  (let waiting := dispatch (fun _ => fetchAcceptMessages) [] w in
   switch_disabled (render (state waiting)) = true
   /\ acceptMessages (state waiting) = acceptMessages (state w)
   /\ log waiting = log w ++ [Requested (Get "/api/accept-messages")])
  /\ (switch_disabled (render (state (load_acceptance answer w))) = false
      /\ isLoading (state (load_acceptance answer w)) = isLoading (state w)
      /\ filter (state (load_acceptance answer w)) = filter (state w))
  /\ (acceptMessages (state (load_acceptance (Resolved r) w))
        = form_value (ApiResponse.isAcceptingMessage (data r))
      /\ switch_checked (render (state (load_acceptance (Resolved r) w)))
        = form_value (ApiResponse.isAcceptingMessage (data r))
      /\ log (load_acceptance (Resolved r) w)
        = log w ++ [Requested (Get "/api/accept-messages")]).
Proof.
  split; [|split].
  - cbv zeta. unfold dispatch. simpl. auto.
  - destruct answer as [r'|e]; unfold load_acceptance, dispatch; simpl; auto.
  - unfold load_acceptance, dispatch. simpl. auto.
Qed.

(** * The page as a whole: handlers that overlap *)

(** Nothing stops the owner from firing a handler while another one is
    still waiting for its answer, and the effect that runs when the
    session arrives starts two fetches at once.  So the page is modelled
    with the promises that are not settled yet: each is the rest of a
    handler, waiting for the answer to its request. *)

(** [session.user] of next-auth, with the field the dashboard reads. *)
Record User : Type := mkUser { username : string }.
Record Session : Type := mkSession { user : option User }.

(** [window.location] *)
Record Location : Type := mkLocation { protocol : string; host : string }.

Record Page : Type := mkPage {
  world : World;
  unsettled : list (AxiosResult -> Task);
  session : option Session;
  profileUrl : string;
  clipboard : option string
}.

(** Runs a task up to its first [await]: the world there and, when the
    task is not finished, what it does with the answer. *)
Fixpoint start (t : Task) (w : World) : World * option (AxiosResult -> Task) :=
  match t with
  | Done => (w, None)
  | Act a k => start k (perform a w)
  | Await rq k => (send rq w, Some k)
  end.

(** Calling an async handler: it runs to its first [await]. *)
Definition call (t : Task) (p : Page) : Page :=
  {| world := fst (start t (world p));
     unsettled := unsettled p ++ match snd (start t (world p)) with
                                 | Some k => [k]
                                 | None => []
                                 end;
     session := session p;
     profileUrl := profileUrl p;
     clipboard := clipboard p |}.

(** The answer [r] to the [i]-th unsettled request arrives. *)
Definition settle (i : nat) (r : AxiosResult) (p : Page) : Page :=
  match nth_error (unsettled p) i with
  | None => p
  | Some k =>
      call (k r)
        {| world := world p;
           unsettled := firstn i (unsettled p) ++ skipn (S i) (unsettled p);
           session := session p;
           profileUrl := profileUrl p;
           clipboard := clipboard p |}
  end.

(** [!session || !session.user] *)
Definition signed_in (p : Page) : option User :=
  match session p with
  | Some s => user s
  | None => None
  end.

(** The page with another session. *)
Definition with_session (s : option Session) (p : Page) : Page :=
  {| world := world p; unsettled := unsettled p; session := s;
     profileUrl := profileUrl p; clipboard := clipboard p |}.

(** The component returns the loader alone unless a user is signed in,
    so the dashboard, and the switch in it, is mounted when a user
    appears where [before] there was none; mounting the switch registers
    the field. *)
Definition show_dashboard (before : option User) (p : Page) : Page :=
  match before, signed_in p with
  | None, Some _ =>
      {| world := {| state := register_acceptMessages (state (world p));
                     log := log (world p) |};
         unsettled := unsettled p;
         session := session p;
         profileUrl := profileUrl p;
         clipboard := clipboard p |}
  | _, _ => p
  end.

(** The body of the [useEffect] that depends on the session. *)
Definition session_effect (location : Location) (p : Page) : Page :=
  match signed_in p with
  | None => p
  | Some u =>
      let p := call (fetchMessages false) p in
      let p := call fetchAcceptMessages p in
      {| world := world p;
         unsettled := unsettled p;
         session := session p;
         profileUrl :=
           String.append (protocol location)
             (String.append "//"
                (String.append (host location)
                   (String.append "/u/" (username u))));
         clipboard := clipboard p |}
  end.

Definition copyToClipboard (p : Page) : Page :=
  {| world := perform (toast {| title := Val "URL Copied!";
                                description :=
                                  Val "Profile URL has been copied to clipboard.";
                                variant := None |}) (world p);
     unsettled := unsettled p;
     session := session p;
     profileUrl := profileUrl p;
     clipboard := Some (profileUrl p) |}.

(** What can happen to the page. *)
Inductive PageEvent : Type :=
| SessionChanged (s : option Session)
| RefreshClicked
| FilterChanged (c : FilterOptions)
| MessageDeleted (messageId : string)
| SwitchToggled
| CopyClicked
| Answered (i : nat) (r : AxiosResult).

(** A new session is rendered, which may mount the dashboard, and then
    the effect runs.  Without a signed-in user the component returns the
    loader alone, so there is nothing to click; a disabled switch does not
    call its handler.  [MessageCard] is not among the sources: it may call
    [onMessageDelete] with any id, at any time its card exists. *)
Definition step (location : Location) (e : PageEvent) (p : Page) : Page :=
  match e with
  | SessionChanged s =>
      session_effect location (show_dashboard (signed_in p) (with_session s p))
  | Answered i r => settle i r p
  | _ =>
      match signed_in p with
      | None => p
      | Some _ =>
          match e with
          | RefreshClicked => call (fetchMessages true) p
          | FilterChanged c => call (handleFilterChange (state (world p)) c) p
          | MessageDeleted messageId =>
              call (handleDeleteMessage (state (world p)) messageId) p
          | SwitchToggled =>
              if isSwitchLoading (state (world p)) then p
              else call (handleSwitchChange (state (world p))) p
          | CopyClicked => copyToClipboard p
          | _ => p
          end
      end
  end.

Definition steps (location : Location) (es : list PageEvent) (p : Page) : Page :=
  fold_left (fun p e => step location e p) es p.

(** The page when the component mounts. *)
Definition mounted : Page :=
  {| world := {| state := initial; log := [] |};
     unsettled := [];
     session := None;
     profileUrl := "";
     clipboard := None |}.

(** [start] is [run] with no answer at hand. *)
Lemma start_run (t : Task) (w : World) : fst (start t w) = run t [] w.
Proof.
  revert w. induction t as [|a k IH|rq k IH]; intros w; simpl; auto.
Qed.

(** A handler called and answered with nothing in between is [run]. *)
Lemma call_settle_run (t : Task) (r : AxiosResult) (p : Page) :
  settles t [r] = true ->
  world (settle (List.length (unsettled p)) r (call t p)) = run t [r] (world p).
Proof.
  unfold settle, call. cbn [unsettled world].
  revert p. induction t as [|a k IH|rq k IH]; intros p; simpl.
  - rewrite app_nil_r.
    assert (nth_error (unsettled p) (List.length (unsettled p)) = None) as ->
      by (apply nth_error_None; lia).
    reflexivity.
  - intros S. specialize (IH {| world := perform a (world p); unsettled := unsettled p;
                                session := session p; profileUrl := profileUrl p;
                                clipboard := clipboard p |} S).
    exact IH.
  - intros S. rewrite nth_error_app2, Nat.sub_diag by lia. simpl.
    rewrite start_run.
    clear IH. revert S. generalize (send rq (world p)). generalize (k r).
    induction t as [|a t IH|rq' k' _]; simpl; intros w0 S; auto; discriminate.
Qed.

(** ** What the displayed list can be *)

(** The displayed list is the full list or the view of the selected
    category. *)
Definition shows_all_or_category (s : State) : Prop :=
  filteredMessages s = messages s \/
  filteredMessages s = shown_for (filter s) (messages s).

(** The rest of a handler that, whenever its answer arrives, finishes
    without a further request and keeps the displayed list in that shape. *)
Definition harmless (k : AxiosResult -> Task) : Prop :=
  forall r w,
    snd (start (k r) w) = None /\
    (shows_all_or_category (state w) ->
     shows_all_or_category (state (fst (start (k r) w)))).

Definition well_shown (p : Page) : Prop :=
  shows_all_or_category (state (world p)) /\ Forall harmless (unsettled p).

Lemma call_well_shown (t : Task) (p : Page) :
  well_shown p ->
  (shows_all_or_category (state (world p)) ->
   shows_all_or_category (state (fst (start t (world p))))) ->
  (forall k, snd (start t (world p)) = Some k -> harmless k) ->
  well_shown (call t p).
Proof.
  intros [Shown Rest] Keeps Next. split; simpl.
  - auto.
  - apply Forall_app. split; [exact Rest|].
    destruct (snd (start t (world p))) as [k|]; constructor; auto.
Qed.

Lemma fetchMessages_call (refresh : bool) (p : Page) :
  well_shown p -> well_shown (call (fetchMessages refresh) p).
Proof.
  intros W. apply call_well_shown; [exact W| |].
  - simpl. auto.
  - simpl. intros k E. injection E as <-. intros r w.
    destruct r as [r|e], refresh; simpl; (split; [reflexivity|]);
      unfold shows_all_or_category; simpl; auto.
Qed.

Lemma fetchAcceptMessages_call (p : Page) :
  well_shown p -> well_shown (call fetchAcceptMessages p).
Proof.
  intros W. apply call_well_shown; [exact W| |].
  - simpl. auto.
  - simpl. intros k E. injection E as <-. intros r w.
    destruct r as [r|e]; simpl; (split; [reflexivity|]);
      unfold shows_all_or_category; simpl; auto.
Qed.

Lemma handleSwitchChange_call (p : Page) :
  well_shown p -> well_shown (call (handleSwitchChange (state (world p))) p).
Proof.
  intros W. apply call_well_shown; [exact W| |].
  - simpl. auto.
  - simpl. intros k E. injection E as <-. intros r w.
    destruct r as [r|e]; simpl; (split; [reflexivity|]);
      unfold shows_all_or_category; simpl; auto.
Qed.

Lemma handleFilterChange_call (c : FilterOptions) (p : Page) :
  well_shown p -> well_shown (call (handleFilterChange (state (world p)) c) p).
Proof.
  intros W. apply call_well_shown; [exact W| |].
  - intros _. rewrite start_run. right. destruct c; reflexivity.
  - intros k E. destruct c; discriminate.
Qed.

Lemma handleDeleteMessage_call (messageId : string) (p : Page) :
  well_shown p -> well_shown (call (handleDeleteMessage (state (world p)) messageId) p).
Proof.
  intros W. apply call_well_shown; [exact W| |].
  - intros _. left. reflexivity.
  - intros k E. discriminate.
Qed.

Lemma Forall_without {A : Type} (P : A -> Prop) (i : nat) (l : list A) :
  Forall P l -> Forall P (firstn i l ++ skipn (S i) l).
Proof.
  intros F. revert i. induction F as [|x l Px F IH]; intros i.
  - destruct i; constructor.
  - destruct i as [|i]; simpl; [exact F|]. constructor; [exact Px | apply IH].
Qed.

Lemma settle_well_shown (i : nat) (r : AxiosResult) (p : Page) :
  well_shown p -> well_shown (settle i r p).
Proof.
  intros [Shown Rest]. unfold settle.
  destruct (nth_error (unsettled p) i) as [k|] eqn:E; [|split; assumption].
  assert (harmless k) as H.
  { rewrite Forall_forall in Rest. apply Rest. eapply nth_error_In, E. }
  destruct (H r (world p)) as [Ends Keeps].
  apply call_well_shown; simpl.
  - split; [exact Shown|]. simpl. now apply Forall_without.
  - exact Keeps.
  - intros k' E'. rewrite Ends in E'. discriminate.
Qed.

Lemma show_dashboard_well_shown (before : option User) (p : Page) :
  well_shown p -> well_shown (show_dashboard before p).
Proof.
  intros [Shown Rest]. unfold show_dashboard.
  destruct before; [split; assumption|].
  destruct (signed_in p); [|split; assumption].
  split; [|exact Rest]. cbn [world state].
  unfold register_acceptMessages.
  destruct (acceptMessages (state (world p))); exact Shown.
Qed.

Lemma session_effect_well_shown (location : Location) (p : Page) :
  well_shown p -> well_shown (session_effect location p).
Proof.
  intros W. unfold session_effect.
  destruct (signed_in p) as [u|]; [|exact W].
  assert (well_shown (call fetchAcceptMessages (call (fetchMessages false) p))) as W'.
  { apply fetchAcceptMessages_call, fetchMessages_call. exact W. }
  exact W'.
Qed.

Lemma step_well_shown (location : Location) (e : PageEvent) (p : Page) :
  well_shown p -> well_shown (step location e p).
Proof.
  intros W. destruct e; cbn [step].
  - apply session_effect_well_shown, show_dashboard_well_shown. exact W.
  - destruct (signed_in p); [apply fetchMessages_call|]; exact W.
  - destruct (signed_in p); [apply handleFilterChange_call|]; exact W.
  - destruct (signed_in p); [apply handleDeleteMessage_call|]; exact W.
  - destruct (signed_in p); [|exact W].
    destruct (isSwitchLoading (state (world p))); [exact W|].
    apply handleSwitchChange_call, W.
  - destruct (signed_in p); [|exact W]. destruct W as [Shown Rest]. split; assumption.
  - apply settle_well_shown, W.
Qed.

Lemma steps_well_shown (location : Location) (es : list PageEvent) (p : Page) :
  well_shown p -> well_shown (steps location es p).
Proof.
  revert p. induction es as [|e es IH]; intros p W; simpl; [exact W|].
  apply IH, step_well_shown, W.
Qed.

Lemma shown_for_In (c : FilterOptions) (l : list Message) (m : Message) :
  In m (shown_for c l) -> In m l.
Proof.
  unfold shown_for. destruct (option_value c =? "all"); [auto|].
  intros I. apply filter_In in I. tauto.
Qed.

Lemma shown_for_shorter (c : FilterOptions) (l : list Message) :
  List.length (shown_for c l) <= List.length l.
Proof.
  unfold shown_for. destruct (option_value c =? "all"); [lia|]. apply filter_shorter.
Qed.

(** X7. Whatever the owner does and in whatever order the answers arrive,
    overlapping handlers included, the displayed list is always either
    the full list or the view of the category selected in the dropdown.
    So every card on the page is a message of the inbox, and the figure
    under "Total Messages Received:" never exceeds the size of the inbox. *)
Theorem displayed_list_is_all_or_category (location : Location) (es : list PageEvent) :
  let s := state (world (steps location es mounted)) in
  shows_all_or_category s
  /\ (forall m, In m (filteredMessages s) -> In m (messages s))
  /\ countUp_to (render s) <= List.length (messages s).
Proof.
  cbv zeta.
  assert (well_shown (steps location es mounted)) as [Shown _].
  { apply steps_well_shown. split; [left; reflexivity | constructor]. }
  split; [exact Shown|].
  change (countUp_to (render (state (world (steps location es mounted)))))
    with (List.length (filteredMessages (state (world (steps location es mounted))))).
  destruct Shown as [E|E]; rewrite E; split.
  - auto.
  - lia.
  - intros m. apply shown_for_In.
  - apply shown_for_shorter.
Qed.

(** ** Answers in any order *)

(** What a task does with the answer to its first request. *)
Fixpoint after_await (t : Task) : AxiosResult -> Task :=
  match t with
  | Done => fun _ => Done
  | Act _ k => after_await k
  | Await _ k => k
  end.

Lemma firstn_length_app {A : Type} (l rest : list A) :
  firstn (List.length l) (l ++ rest) = l.
Proof. induction l as [|x l IH]; simpl; [now destruct rest | now rewrite IH]. Qed.

Lemma skipn_past {A : Type} (l rest : list A) (x : A) :
  skipn (S (List.length l)) (l ++ x :: rest) = rest.
Proof. induction l as [|y l IH]; [reflexivity | exact IH]. Qed.

Lemma nth_error_middle {A : Type} (l rest : list A) (x : A) :
  nth_error (l ++ x :: rest) (List.length l) = Some x.
Proof. induction l as [|y l IH]; [reflexivity | exact IH]. Qed.

(** Settling the request that has [l] older ones before it. *)
Lemma settle_at (p : Page) (l rest : list (AxiosResult -> Task))
    (k : AxiosResult -> Task) (r : AxiosResult) :
  unsettled p = l ++ k :: rest ->
  settle (List.length l) r p =
  call (k r) {| world := world p; unsettled := l ++ rest; session := session p;
                profileUrl := profileUrl p; clipboard := clipboard p |}.
Proof.
  intros E. unfold settle.
  rewrite E, nth_error_middle, firstn_length_app, skipn_past. reflexivity.
Qed.

Lemma session_effect_signed_in (location : Location) (p : Page) (u : User) :
  signed_in p = Some u ->
  session_effect location p =
  {| world :=
       {| state := {| messages := messages (state (world p));
                      filteredMessages := filteredMessages (state (world p));
                      isLoading := true;
                      isSwitchLoading := true;
                      filter := filter (state (world p));
                      acceptMessages := acceptMessages (state (world p)) |};
          log := (log (world p) ++ [Requested (Get "/api/get-messages")])
                   ++ [Requested (Get "/api/accept-messages")] |};
     unsettled := (unsettled p ++ [after_await (fetchMessages false)])
                    ++ [after_await fetchAcceptMessages];
     session := session p;
     profileUrl :=
       String.append (protocol location)
         (String.append "//"
            (String.append (host location) (String.append "/u/" (username u))));
     clipboard := clipboard p |}.
Proof. intros E. unfold session_effect. rewrite E. reflexivity. Qed.

Definition here : Location := {| protocol := "https:"; host := "suggestions.example" |}.
Definition owner : User := {| username := "asha" |}.

(** The acceptance value on the page once a signed-in user is rendered:
    the value the page had, after the registration of the switch when the
    dashboard was not shown before. *)
Definition value_when_shown (p : Page) : Nullable FieldValue :=
  match signed_in p with
  | None => acceptMessages (register_acceptMessages (state (world p)))
  | Some _ => acceptMessages (state (world p))
  end.

Lemma session_changed_no_user (location : Location) (p : Page) (s : option Session) :
  signed_in (with_session s p) = None ->
  step location (SessionChanged s) p = with_session s p.
Proof.
  intros E. cbn [step]. unfold show_dashboard. rewrite E.
  assert (match signed_in p with Some _ | None => with_session s p end = with_session s p)
    as -> by (destruct (signed_in p); reflexivity).
  unfold session_effect. rewrite E. reflexivity.
Qed.

Lemma session_changed_to_user (location : Location) (p : Page) (u : User) :
  step location (SessionChanged (Some {| user := Some u |})) p =
  {| world :=
       {| state := {| messages := messages (state (world p));
                      filteredMessages := filteredMessages (state (world p));
                      isLoading := true;
                      isSwitchLoading := true;
                      filter := filter (state (world p));
                      acceptMessages := value_when_shown p |};
          log := (log (world p) ++ [Requested (Get "/api/get-messages")])
                   ++ [Requested (Get "/api/accept-messages")] |};
     unsettled := (unsettled p ++ [after_await (fetchMessages false)])
                    ++ [after_await fetchAcceptMessages];
     session := Some {| user := Some u |};
     profileUrl :=
       String.append (protocol location)
         (String.append "//"
            (String.append (host location) (String.append "/u/" (username u))));
     clipboard := clipboard p |}.
Proof.
  cbn [step]. unfold show_dashboard, value_when_shown.
  destruct (signed_in p) as [u0|].
  - rewrite (session_effect_signed_in location _ u) by reflexivity. reflexivity.
  - cbn [signed_in with_session session user].
    rewrite (session_effect_signed_in location _ u) by reflexivity.
    unfold register_acceptMessages, with_session.
    cbn [world state log unsettled session profileUrl clipboard].
    destruct (acceptMessages (state (world p))); reflexivity.
Qed.

(** X8. Without a session, or with a session that has no user, the effect
    does nothing: no request leaves and the state stays.  With a user it
    starts both fetches at once, get-messages first, turns both loading
    flags on, and sets the profile URL to
    [protocol//host/u/username]; from then on "Copy" puts exactly that URL
    on the clipboard and touches neither lists nor requests. *)
Theorem session_effect_loads_the_dashboard (location : Location) (p : Page) (u : User) :
  step location (SessionChanged None) p = with_session None p
  /\ step location (SessionChanged (Some {| user := None |})) p
     = with_session (Some {| user := None |}) p
  /\ (let p1 := step location (SessionChanged (Some {| user := Some u |})) p in
      log (world p1)
      = log (world p) ++ [Requested (Get "/api/get-messages");
                          Requested (Get "/api/accept-messages")]
      /\ List.length (unsettled p1) = List.length (unsettled p) + 2
      /\ isLoading (state (world p1)) = true
      /\ isSwitchLoading (state (world p1)) = true
      /\ messages (state (world p1)) = messages (state (world p))
      /\ profileUrl p1
         = String.append (protocol location)
             (String.append "//"
                (String.append (host location) (String.append "/u/" (username u))))
      /\ clipboard (step location CopyClicked p1) = Some (profileUrl p1)
      /\ state (world (step location CopyClicked p1)) = state (world p1)
      /\ unsettled (step location CopyClicked p1) = unsettled p1).
Proof.
  split; [now apply session_changed_no_user|].
  split; [now apply session_changed_no_user|].
  cbv zeta. rewrite session_changed_to_user.
  cbn [world log state unsettled isLoading isSwitchLoading messages profileUrl
       step signed_in session user copyToClipboard clipboard with_session].
  split; [now rewrite <- app_assoc|].
  split; [rewrite !length_app; simpl; lia|].
  repeat (split; [reflexivity|]). reflexivity.
Qed.

(** Settling a request whose handler then runs to its end. *)
Lemma settle_to_the_end (p : Page) (l rest : list (AxiosResult -> Task))
    (k : AxiosResult -> Task) (r : AxiosResult) :
  unsettled p = l ++ k :: rest ->
  snd (start (k r) (world p)) = None ->
  settle (List.length l) r p =
  {| world := run (k r) [] (world p); unsettled := l ++ rest; session := session p;
     profileUrl := profileUrl p; clipboard := clipboard p |}.
Proof.
  intros E Ends. rewrite (settle_at p l rest k r E).
  unfold call. cbn [world unsettled session profileUrl clipboard].
  now rewrite Ends, app_nil_r, start_run.
Qed.

Lemma fetchMessages_ends (refresh : bool) (r : AxiosResult) (w : World) :
  snd (start (after_await (fetchMessages refresh) r) w) = None.
Proof. destruct r, refresh; reflexivity. Qed.

Lemma fetchAcceptMessages_ends (r : AxiosResult) (w : World) :
  snd (start (after_await fetchAcceptMessages r) w) = None.
Proof. destruct r; reflexivity. Qed.

Lemma handleSwitchChange_ends (rendered : State) (r : AxiosResult) (w : World) :
  snd (start (after_await (handleSwitchChange rendered) r) w) = None.
Proof. destruct r; reflexivity. Qed.

(** X9. The two fetches of the first load may be answered in either
    order: the state at the end is the same, both loading flags are off,
    and no request of the two is left unsettled.  The lists are those of
    the get-messages answer, or the old ones when it fails.  The
    acceptance value is that of the accept-messages answer, or, when it
    fails, the value the page had when the fetches started: on a first
    load, where the field had no value, that is the switch's own value
    "on"; a boolean stored before stays. *)
Theorem first_load_settles_in_any_order
    (location : Location) (p : Page) (u : User) (rm ra : AxiosResult) :
  let n := List.length (unsettled p) in
  let p1 := step location (SessionChanged (Some {| user := Some u |})) p in
  let messages_first :=
    step location (Answered n ra) (step location (Answered n rm) p1) in
  let acceptance_first :=
    step location (Answered n rm) (step location (Answered (S n) ra) p1) in
  state (world messages_first) = state (world acceptance_first)
  /\ unsettled messages_first = unsettled p
  /\ unsettled acceptance_first = unsettled p
  /\ isLoading (state (world messages_first)) = false
  /\ isSwitchLoading (state (world messages_first)) = false
  /\ messages (state (world messages_first))
     = match rm with
       | Resolved r => array_or (ApiResponse.messages (data r)) []
       | Rejected _ => messages (state (world p))
       end
  /\ acceptMessages (state (world messages_first))
     = match ra with
       | Resolved r => form_value (ApiResponse.isAcceptingMessage (data r))
       | Rejected _ => acceptMessages (state (world p1))
       end
  /\ (signed_in p = None ->
      acceptMessages (state (world p)) = Undefined ->
      acceptMessages (state (world p1)) = Val (text "on"))
  /\ (forall b : bool,
        acceptMessages (state (world p)) = Val (boolean b) ->
        acceptMessages (state (world p1)) = Val (boolean b)).
Proof.
  cbv zeta. rewrite session_changed_to_user. cbn [step].
  cbn [world unsettled session profileUrl clipboard].
  set (km := after_await (fetchMessages false)).
  set (ka := after_await fetchAcceptMessages).
  set (U := unsettled p).
  (* get-messages answered first *)
  rewrite (settle_to_the_end _ U [ka] km rm);
    [|cbn [unsettled]; now rewrite <- app_assoc | apply fetchMessages_ends].
  rewrite (settle_to_the_end _ U [] ka ra);
    [|reflexivity | apply fetchAcceptMessages_ends].
  (* accept-messages answered first *)
  replace (S (List.length U)) with (List.length (U ++ [km]))
    by (rewrite length_app; simpl; lia).
  rewrite (settle_to_the_end _ (U ++ [km]) [] ka ra);
    [|reflexivity | apply fetchAcceptMessages_ends].
  rewrite (settle_to_the_end _ U [] km rm);
    [|cbn [unsettled]; now rewrite app_nil_r | apply fetchMessages_ends].
  cbn [world unsettled state acceptMessages]. rewrite !app_nil_r.
  split; [destruct rm, ra; reflexivity|].
  split; [reflexivity|]. split; [reflexivity|].
  split; [destruct rm, ra; reflexivity|].
  split; [destruct rm, ra; reflexivity|].
  split; [destruct rm, ra; reflexivity|].
  split; [destruct rm, ra; reflexivity|].
  unfold value_when_shown, register_acceptMessages. split.
  - intros -> ->. reflexivity.
  - intros b E. destruct (signed_in p); rewrite ?E; cbn; rewrite ?E; reflexivity.
Qed.

Lemma first_load_settles_in_any_order_witness :
  signed_in mounted = None
  /\ acceptMessages (state (world mounted)) = Undefined
  /\ acceptMessages
       (state (world (step here (SessionChanged (Some {| user := Some owner |})) mounted)))
     = Val (text "on").
Proof.
  split; [reflexivity|]. split; [reflexivity|].
  destruct (first_load_settles_in_any_order
              here mounted owner
              (Rejected no_answer) (Rejected no_answer))
    as (_ & _ & _ & _ & _ & _ & _ & First & _).
  exact (First eq_refl eq_refl).
Defined.

(** X10. The loading flag of the switch is shared by both fetches.  When
    get-messages is answered first, its [finally] enables the switch while
    accept-messages is still unsettled and the acceptance value is still
    the one the page had when the fetches started; a flip at that moment
    is carried out and posts the negation of that value.  On a first
    load, where the field had no value, the page then holds the switch's
    own value "on", labelled "On", and the flip posts [false]. *)
Theorem switch_is_enabled_before_acceptance_loads
    (location : Location) (p : Page) (u : User) (rm : AxiosResult) :
  let n := List.length (unsettled p) in
  let p1 := step location (SessionChanged (Some {| user := Some u |})) p in
  let p2 := step location (Answered n rm) p1 in
  switch_disabled (render (state (world p1))) = true
  /\ switch_disabled (render (state (world p2))) = false
  /\ unsettled p2 = unsettled p ++ [after_await fetchAcceptMessages]
  /\ acceptMessages (state (world p2)) = acceptMessages (state (world p1))
  /\ log (world (step location SwitchToggled p2))
     = log (world p2)
         ++ [Requested (Post "/api/accept-messages"
                          (js_not (acceptMessages (state (world p1)))))]
  /\ (signed_in p = None ->
      acceptMessages (state (world p)) = Undefined ->
      acceptMessages (state (world p2)) = Val (text "on")
      /\ accept_label (render (state (world p2))) = "On"
      /\ log (world (step location SwitchToggled p2))
         = log (world p2) ++ [Requested (Post "/api/accept-messages" false)]).
Proof.
  cbv zeta. rewrite session_changed_to_user. cbn [step].
  cbn [world unsettled session profileUrl clipboard].
  set (km := after_await (fetchMessages false)).
  set (ka := after_await fetchAcceptMessages).
  rewrite (settle_to_the_end _ (unsettled p) [ka] km rm);
    [|cbn [unsettled]; now rewrite <- app_assoc | apply fetchMessages_ends].
  unfold signed_in. cbn [world session user state acceptMessages].
  split; [reflexivity|].
  split; [destruct rm; reflexivity|].
  split; [reflexivity|].
  split; [destruct rm; reflexivity|].
  split; [destruct rm; reflexivity|].
  intros NoUser NoValue.
  assert (value_when_shown p = Val (text "on")) as E.
  { unfold value_when_shown, signed_in, register_acceptMessages.
    rewrite NoUser, NoValue. reflexivity. }
  rewrite E. destruct rm; repeat (split; [reflexivity|]); reflexivity.
Qed.

Lemma switch_is_enabled_before_acceptance_loads_witness :
  signed_in mounted = None
  /\ acceptMessages (state (world mounted)) = Undefined
  /\ log (world
            (steps here
               [SessionChanged (Some {| user := Some owner |});
                Answered 0 (Rejected no_answer);
                SwitchToggled]
               mounted))
     = [Requested (Get "/api/get-messages");
        Requested (Get "/api/accept-messages");
        Toasted (error_toast no_answer "Failed to fetch messages");
        Requested (Post "/api/accept-messages" false)].
Proof.
  split; [reflexivity|]. split; [reflexivity|].
  destruct (switch_is_enabled_before_acceptance_loads
              here mounted owner (Rejected no_answer))
    as (_ & _ & _ & _ & _ & First).
  destruct (First eq_refl eq_refl) as (_ & _ & Posted).
  exact Posted.
Defined.

Lemma toggle_enabled (location : Location) (p : Page) (u : User) :
  signed_in p = Some u ->
  isSwitchLoading (state (world p)) = false ->
  step location SwitchToggled p =
  {| world := send (Post "/api/accept-messages" (js_not (acceptMessages (state (world p)))))
                (world p);
     unsettled := unsettled p ++ [after_await (handleSwitchChange (state (world p)))];
     session := session p;
     profileUrl := profileUrl p;
     clipboard := clipboard p |}.
Proof. intros S E. cbn [step]. rewrite S, E. reflexivity. Qed.

(** X11. The switch is not disabled while its own request is on the way.
    Two flips fired before the first answer both come from the same
    render: they post the same value twice, and when both succeed, in
    either order, the local value is the negation of the original value,
    not the original value. *)
Theorem overlapping_flips_do_not_cancel
    (location : Location) (p : Page) (u : User) (r1 r2 : AxiosResponse)
    (Signed : signed_in p = Some u)
    (Enabled : isSwitchLoading (state (world p)) = false) :
  let n := List.length (unsettled p) in
  let flipped := js_not (acceptMessages (state (world p))) in
  let p2 := step location SwitchToggled (step location SwitchToggled p) in
  log (world p2)
  = log (world p) ++ [Requested (Post "/api/accept-messages" flipped);
                      Requested (Post "/api/accept-messages" flipped)]
  /\ acceptMessages
       (state (world (step location (Answered n (Resolved r2))
                        (step location (Answered n (Resolved r1)) p2))))
     = Val (boolean flipped)
  /\ acceptMessages
       (state (world (step location (Answered n (Resolved r1))
                        (step location (Answered (S n) (Resolved r2)) p2))))
     = Val (boolean flipped).
Proof.
  cbv zeta.
  rewrite (toggle_enabled location p u Signed Enabled).
  rewrite (toggle_enabled location _ u) by assumption.
  cbn [world unsettled session profileUrl clipboard send state log step].
  set (k := after_await (handleSwitchChange (state (world p)))).
  set (U := unsettled p).
  split; [now rewrite <- app_assoc|]. split.
  - rewrite (settle_to_the_end _ U [k] k (Resolved r1));
      [|cbn [unsettled]; now rewrite <- app_assoc | apply handleSwitchChange_ends].
    rewrite (settle_to_the_end _ U [] k (Resolved r2));
      [|reflexivity | apply handleSwitchChange_ends].
    reflexivity.
  - replace (S (List.length U)) with (List.length (U ++ [k]))
      by (rewrite length_app; simpl; lia).
    rewrite (settle_to_the_end _ (U ++ [k]) [] k (Resolved r2));
      [|reflexivity | apply handleSwitchChange_ends].
    rewrite (settle_to_the_end _ U [] k (Resolved r1));
      [|cbn [unsettled]; now rewrite app_nil_r | apply handleSwitchChange_ends].
    reflexivity.
Qed.

(** The dashboard of [owner] after a first load of [inbox] with
    acceptance on. *)
Definition ready : Page :=
  steps here
    [SessionChanged (Some {| user := Some owner |});
     Answered 0 (Resolved (answer_with (Val inbox) Undefined));
     Answered 0 (Resolved (answer_with Undefined (Val true)))]
    mounted.

Lemma overlapping_flips_do_not_cancel_witness :
  acceptMessages (state (world ready)) = Val (boolean true)
  /\ acceptMessages
       (state (world (step here (Answered 0 (Resolved (answer_with Undefined (Val false))))
                        (step here (Answered 0 (Resolved (answer_with Undefined (Val false))))
                           (step here SwitchToggled (step here SwitchToggled ready))))))
     = Val (boolean false).
Proof.
  split; [reflexivity|].
  exact (proj1 (proj2 (overlapping_flips_do_not_cancel here ready owner
                         (answer_with Undefined (Val false))
                         (answer_with Undefined (Val false))
                         eq_refl eq_refl))).
Defined.

Lemma refresh_clicked (location : Location) (p : Page) (u : User) :
  signed_in p = Some u ->
  step location RefreshClicked p =
  {| world := send (Get "/api/get-messages")
                (perform (setIsSwitchLoading true) (perform (setIsLoading true) (world p)));
     unsettled := unsettled p ++ [after_await (fetchMessages true)];
     session := session p;
     profileUrl := profileUrl p;
     clipboard := clipboard p |}.
Proof. intros S. cbn [step]. rewrite S. reflexivity. Qed.

(** X12. The refresh button stays enabled while a refresh is on the way.
    When two refreshes overlap, the lists end up as those of the answer
    that arrives last, also when that is the answer to the older request;
    and the first answer already turns the loader off and shows its
    messages while the other request is still unsettled. *)
Theorem overlapping_refreshes_last_answer_wins
    (location : Location) (p : Page) (u : User) (older newer : AxiosResponse)
    (Signed : signed_in p = Some u) :
  let n := List.length (unsettled p) in
  let p2 := step location RefreshClicked (step location RefreshClicked p) in
  let in_order :=
    step location (Answered n (Resolved newer))
      (step location (Answered n (Resolved older)) p2) in
  let out_of_order :=
    step location (Answered n (Resolved older))
      (step location (Answered (S n) (Resolved newer)) p2) in
  List.length (unsettled p2) = n + 2
  /\ messages (state (world in_order)) = array_or (ApiResponse.messages (data newer)) []
  /\ messages (state (world out_of_order)) = array_or (ApiResponse.messages (data older)) []
  /\ filteredMessages (state (world out_of_order))
     = array_or (ApiResponse.messages (data older)) []
  /\ (let p3 := step location (Answered n (Resolved older)) p2 in
      List.length (unsettled p3) = n + 1
      /\ cards (render (state (world p3)))
         = Some (array_or (ApiResponse.messages (data older)) [])).
Proof.
  cbv zeta.
  rewrite (refresh_clicked location p u Signed).
  rewrite (refresh_clicked location _ u) by assumption.
  cbn [world unsettled session profileUrl clipboard step].
  set (k := after_await (fetchMessages true)).
  set (U := unsettled p).
  split; [rewrite !length_app; simpl; lia|].
  rewrite (settle_to_the_end _ U [k] k (Resolved older));
    [|cbn [unsettled]; now rewrite <- app_assoc | apply fetchMessages_ends].
  rewrite (settle_to_the_end _ U [] k (Resolved newer));
    [|reflexivity | apply fetchMessages_ends].
  replace (S (List.length U)) with (List.length (U ++ [k]))
    by (rewrite length_app; simpl; lia).
  rewrite (settle_to_the_end _ (U ++ [k]) [] k (Resolved newer));
    [|reflexivity | apply fetchMessages_ends].
  rewrite (settle_to_the_end _ U [] k (Resolved older));
    [|cbn [unsettled]; now rewrite app_nil_r | apply fetchMessages_ends].
  split; [reflexivity|]. split; [reflexivity|]. split; [reflexivity|].
  split; [cbn [unsettled]; rewrite length_app; simpl; lia | reflexivity].
Qed.

Lemma overlapping_refreshes_last_answer_wins_witness :
  messages
    (state (world (step here (Answered 0 (Resolved (answer_with (Val inbox) Undefined)))
                     (step here (Answered 1 (Resolved (answer_with (Val [m_feedback]) Undefined)))
                        (step here RefreshClicked (step here RefreshClicked ready))))))
  = inbox.
Proof.
  exact (proj1 (proj2 (proj2
           (overlapping_refreshes_last_answer_wins here ready owner
              (answer_with (Val inbox) Undefined)
              (answer_with (Val [m_feedback]) Undefined) eq_refl)))).
Defined.

(** ** A deletion called from an older render *)

(** X13. [handleDeleteMessage] filters the list of the render that created
    it, not the list that is current when it runs.  Called from the render
    before another deletion, it puts back the message that deletion
    removed: after deleting [a] on the current page, the handler of the
    older render called for [b] leaves a list that contains the messages
    with id [a] again, and none with id [b]. *)
Theorem stale_delete_restores (w : World) (a b : string) (m : Message)
    (Listed : In m (messages (state w)))
    (Deleted : _id m = a)
    (Other : a <> b) :
  let now := delete_message a w in
  let later := run (handleDeleteMessage (state w) b) [] now in
  ~ In m (messages (state now))
  /\ In m (messages (state later))
  /\ In m (filteredMessages (state later))
  /\ (forall m', In m' (messages (state later)) -> _id m' <> b).
Proof.
  cbv zeta. rewrite delete_message_eq. cbn -[List.filter].
  split; [|split; [|split]].
  - intros I. apply filter_In in I. destruct I as [_ K].
    apply id_kept_spec in K. contradiction.
  - apply filter_In. split; [exact Listed|]. apply id_kept_spec. congruence.
  - apply filter_In. split; [exact Listed|]. apply id_kept_spec. congruence.
  - intros m' I. apply filter_In in I. now apply id_kept_spec.
Qed.

Lemma stale_delete_restores_witness :
  In m_appreciation
    (messages (state (run (handleDeleteMessage (state loaded_world) "m2") []
                        (delete_message "m1" loaded_world)))).
Proof.
  assert (In m_appreciation (messages (state loaded_world))) as Listed
    by (simpl; auto).
  assert ("m1" <> "m2") as Other by discriminate.
  exact (proj1 (proj2 (stale_delete_restores loaded_world "m1" "m2" m_appreciation
                         Listed eq_refl Other))).
Defined.

(** * The sign-in page *)

Module SignIn.

(** What [signIn] of next-auth resolves to, with the fields the page reads. *)
Record SignInResponse : Type := mkSignInResponse {
  error : Nullable string;
  url : Nullable string
}.

(** [await signIn(..)]: it resolves, possibly to undefined, or it throws. *)
Inductive SignInOutcome : Type :=
| returned (result : option SignInResponse)
| threw.

(** The arguments of [signIn("credentials", ..)]. *)
Record Credentials : Type := mkCredentials {
  redirect : bool;
  identifier : string;
  password : string
}.

(** The form data, [z.infer<typeof signInSchema>]. *)
Record FormData : Type := mkFormData {
  data_identifier : string;
  data_password : string
}.

(** The page: its [useState] cell, and what it has sent out so far. *)
Record Form : Type := mkForm {
  isSubmitting : bool;
  signIn_calls : list Credentials;
  toasts : list Toast;
  router_replace : list string
}.

(** Truthiness of a string that may be missing: the empty string is falsy. *)
Definition truthy_string (v : Nullable string) : bool :=
  match v with
  | Val s => negb (s =? "")
  | Undefined | Null => false
  end.

(** [result?.error] and [result?.url] *)
Definition result_error (result : option SignInResponse) : Nullable string :=
  match result with
  | Some r => error r
  | None => Undefined
  end.

Definition result_url (result : option SignInResponse) : Nullable string :=
  match result with
  | Some r => url r
  | None => Undefined
  end.

Definition setIsSubmitting (b : bool) (f : Form) : Form :=
  {| isSubmitting := b; signIn_calls := signIn_calls f;
     toasts := toasts f; router_replace := router_replace f |}.

Definition show (t : Toast) (f : Form) : Form :=
  {| isSubmitting := isSubmitting f; signIn_calls := signIn_calls f;
     toasts := toasts f ++ [t]; router_replace := router_replace f |}.

Definition replace_route (path : string) (f : Form) : Form :=
  {| isSubmitting := isSubmitting f; signIn_calls := signIn_calls f;
     toasts := toasts f; router_replace := router_replace f ++ [path] |}.

Definition call_signIn (c : Credentials) (f : Form) : Form :=
  {| isSubmitting := isSubmitting f; signIn_calls := signIn_calls f ++ [c];
     toasts := toasts f; router_replace := router_replace f |}.

(** [onSubmit] up to its [await]. *)
Definition onSubmit_begin (data : FormData) (f : Form) : Form :=
  call_signIn {| redirect := false;
                 identifier := data_identifier data;
                 password := data_password data |}
    (setIsSubmitting true f).

(** [onSubmit] from the outcome of [signIn] on. *)
Definition onSubmit_end (outcome : SignInOutcome) (f : Form) : Form :=
  let f :=
    match outcome with
    | returned result =>
        let f :=
          if truthy_string (result_error result)
          then show {| title := Val "Login Failed";
                       description := Val "Incorrect username or password";
                       variant := Some destructive |} f
          else f in
        if truthy_string (result_url result)
        then replace_route "/dashboard" f
        else f
    | threw =>
        show {| title := Val "Error";
                description := Val "Something went wrong. Please try again.";
                variant := Some destructive |} f
    end in
  setIsSubmitting false f.

Definition onSubmit (data : FormData) (outcome : SignInOutcome) (f : Form) : Form :=
  onSubmit_end outcome (onSubmit_begin data f).

(** The submit button: [disabled={isSubmitting}]. *)
Definition button_disabled (f : Form) : bool := isSubmitting f.

(** X14. A submit disables the button while [signIn] is awaited, calls
    [signIn] once with [redirect: false] and the form's identifier and
    password, and enables the button again whatever the outcome.  It shows
    at most one toast: one when [signIn] throws, one when the result has a
    non-empty [error], none otherwise.  It replaces the route, always by
    "/dashboard", exactly when [signIn] returned a result with a non-empty
    [url], whether or not that result also has an [error]; never when
    [signIn] throws or resolves to undefined. *)
Theorem onSubmit_outcomes (data : FormData) (outcome : SignInOutcome) (f : Form) :
  button_disabled (onSubmit_begin data f) = true
  /\ signIn_calls (onSubmit data outcome f)
     = signIn_calls f ++ [{| redirect := false;
                             identifier := data_identifier data;
                             password := data_password data |}]
  /\ button_disabled (onSubmit data outcome f) = false
  /\ (exists shown,
        toasts (onSubmit data outcome f) = toasts f ++ shown
        /\ List.length shown <= 1
        /\ (shown = [] <->
            exists result, outcome = returned result
                           /\ truthy_string (result_error result) = false))
  /\ (exists routes,
        router_replace (onSubmit data outcome f) = router_replace f ++ routes
        /\ (routes = ["/dashboard"] \/ routes = [])
        /\ (routes = ["/dashboard"] <->
            exists r, outcome = returned (Some r) /\ truthy_string (url r) = true)).
Proof.
  split; [reflexivity|].
  unfold onSubmit, onSubmit_end, onSubmit_begin.
  split; [|split].
  { destruct outcome as [result|]; [|reflexivity].
    destruct (truthy_string (result_error result)),
             (truthy_string (result_url result)); reflexivity. }
  { destruct outcome as [result|]; reflexivity. }
  destruct outcome as [result|].
  - destruct (truthy_string (result_error result)) eqn:Er,
             (truthy_string (result_url result)) eqn:Ur; simpl; split.
    + eexists. split; [reflexivity|]. split; [simpl; lia|]. split; [discriminate|].
      intros (x & E & F). injection E as <-. congruence.
    + exists ["/dashboard"]. split; [reflexivity|]. split; [auto|].
      split; [|reflexivity]. intros _.
      destruct result as [r|]; [exists r; split; [reflexivity | exact Ur] | discriminate].
    + eexists. split; [reflexivity|]. split; [simpl; lia|]. split; [discriminate|].
      intros (x & E & F). injection E as <-. congruence.
    + exists []. split; [now rewrite app_nil_r|]. split; [auto|].
      split; [discriminate|]. intros (r & E & F). injection E as ->.
      simpl in Ur. congruence.
    + exists []. split; [now rewrite app_nil_r|]. split; [simpl; lia|].
      split; [|reflexivity]. intros _. exists result. auto.
    + exists ["/dashboard"]. split; [reflexivity|]. split; [auto|].
      split; [|reflexivity]. intros _.
      destruct result as [r|]; [exists r; split; [reflexivity | exact Ur] | discriminate].
    + exists []. split; [now rewrite app_nil_r|]. split; [simpl; lia|].
      split; [|reflexivity]. intros _. exists result. auto.
    + exists []. split; [now rewrite app_nil_r|]. split; [auto|].
      split; [discriminate|]. intros (r & E & F). injection E as ->.
      simpl in Ur. congruence.
  - simpl. split.
    + eexists. split; [reflexivity|]. split; [simpl; lia|]. split; [discriminate|].
      intros (x & E & _). discriminate.
    + exists []. split; [now rewrite app_nil_r|]. split; [auto|].
      split; [discriminate|]. intros (r & E & _). discriminate.
Qed.

End SignIn.
